(** * BatteryHub dashboard: the time-windowed data view

    A shallow embedding of the chart components' data pipeline
    (src/components/dashboard/BatteryChart.tsx in its two revisions and
    src/components/dashboard/RawBatteryChart.tsx): timestamp parsing, the
    date and time-of-day filters, the display-time labelling pass and the
    scroll/zoom window.

    Conventions.
    - A JavaScript [Date] is its time value or NaN ([InvalidDate]).  All the
      code under study works in local time; the model fixes one zone with a
      constant offset and counts milliseconds from local
      1970-01-01T00:00:00.000, so local calendar fields are plain
      arithmetic on the time value.  Time values are unbounded integers:
      the engine's limit of 8.64e15 ms is not modelled.
    - [console.error], [new Date()] and exceptions are effects: programs run
      in [Eff], a state-and-exception monad over a [World] holding the
      console and the number of clock readings made so far.
    - The functions imported from date-fns (3.x) and the engine's [Date]
      constructor are not part of the repository; they are modelled from
      their documented behaviour, and what an engine does with a string
      outside the ISO subset modelled here is a field of [Env]. *)

From Stdlib Require Import ZArith List String Ascii Bool Lia.
From stdpp Require Import base gmap list strings.

Local Open Scope string_scope.
Local Open Scope Z_scope.

(* ===================================================================== *)
(** ** JavaScript strings *)
(* ===================================================================== *)

Module Js.

(** [s.split(sep)] for a one-character separator: the pieces between the
    separators, empty pieces included; never the empty array. *)
Fixpoint split (sep : ascii) (s : string) : list string :=
  match s with
  | EmptyString => [EmptyString]
  | String c rest =>
      if Ascii.eqb c sep then EmptyString :: split sep rest
      else match split sep rest with
           | tok :: toks => String c tok :: toks
           | [] => [String c EmptyString]
           end
  end.

(** [new Array(n).join(pad)] for a one-character [pad]. *)
Fixpoint repeatChar (n : nat) (pad : ascii) : string :=
  match n with
  | O => EmptyString
  | S k => String pad (repeatChar k pad)
  end.

(** [s.padStart(targetLength, pad)] for a one-character [pad]. *)
Definition padStart (targetLength : nat) (pad : ascii) (s : string) : string :=
  repeatChar (targetLength - String.length s) pad +:+ s.

(** [s.includes(c)] for a one-character needle. *)
Fixpoint includes (c : ascii) (s : string) : bool :=
  match s with
  | EmptyString => false
  | String a rest => Ascii.eqb a c || includes c rest
  end.

(** The value of a decimal digit. *)
Definition digit (c : ascii) : option Z :=
  let n := Z.of_nat (nat_of_ascii c) in
  if (48 <=? n) && (n <=? 57) then Some (n - 48) else None.

(** The value of a run of decimal digits read after the accumulator [acc]. *)
Fixpoint digits (acc : Z) (s : string) : option Z :=
  match s with
  | EmptyString => Some acc
  | String c rest =>
      match digit c with
      | Some d => digits (10 * acc + d) rest
      | None => None
      end
  end.

(** [Number(s)], with [None] for NaN.  Modelled on the strings a time input
    produces: a run of decimal digits is its value (the empty string is 0);
    every other string is NaN here. *)
Definition Number (s : string) : option Z := digits 0 s.

(** A JavaScript exception value: its constructor's name and its message. *)
Record Error := mkError { errName : string; errMessage : string }.

(** A property value of a telemetry record.  The numeric payloads are never
    inspected by the functions modelled here. *)
Inductive Value :=
| VString (s : string)
| VNumber (n : Z)
| VNull.

End Js.

(* ===================================================================== *)
(** ** Dates *)
(* ===================================================================== *)

Inductive Date :=
| ValidDate (t : Z)
| InvalidDate.

Definition msPerSecond : Z := 1000.
Definition msPerMinute : Z := 60000.
Definition msPerHour : Z := 3600000.
Definition msPerDay : Z := 86400000.

Module Civil.

(** Days from 1970-01-01 to the civil date [y]-[m]-[d] (proleptic
    Gregorian calendar). *)
Definition daysFromCivil (y m d : Z) : Z :=
  let y' := if m <=? 2 then y - 1 else y in
  let era := y' / 400 in
  let yoe := y' - era * 400 in
  let mp := if 2 <? m then m - 3 else m + 9 in
  let doy := (153 * mp + 2) / 5 + d - 1 in
  let doe := yoe * 365 + yoe / 4 - yoe / 100 + doy in
  era * 146097 + doe - 719468.

(** The civil date (year, month, day) of a day number. *)
Definition civilFromDays (days : Z) : Z * Z * Z :=
  let z := days + 719468 in
  let era := z / 146097 in
  let doe := z - era * 146097 in
  let yoe := (doe - doe / 1460 + doe / 36524 - doe / 146096) / 365 in
  let doy := doe - (365 * yoe + yoe / 4 - yoe / 100) in
  let mp := (5 * doy + 2) / 153 in
  let d := doy - (153 * mp + 2) / 5 + 1 in
  let m := if mp <? 10 then mp + 3 else mp - 9 in
  let y := yoe + era * 400 in
  (if m <=? 2 then y + 1 else y, m, d).

Definition isLeap (y : Z) : bool :=
  ((y mod 4 =? 0) && negb (y mod 100 =? 0)) || (y mod 400 =? 0).

Definition daysInMonth (y m : Z) : Z :=
  if m =? 2 then (if isLeap y then 29 else 28)
  else if (m =? 4) || (m =? 6) || (m =? 9) || (m =? 11) then 30
  else 31.

(** [getHours()], [getMinutes()], [getDate()], [getMonth() + 1] of a time
    value. *)
Definition hourOf (t : Z) : Z := (t mod msPerDay) / msPerHour.
Definition minuteOf (t : Z) : Z := (t mod msPerHour) / msPerMinute.
Definition dayOfMonth (t : Z) : Z := snd (civilFromDays (t / msPerDay)).
Definition monthOf (t : Z) : Z := snd (fst (civilFromDays (t / msPerDay))).

(** The time value of a local date and time, when every field is in its
    calendar range. *)
Definition timeValue (y m d h mi s : Z) : option Z :=
  if (1 <=? m) && (m <=? 12) && (1 <=? d) && (d <=? daysInMonth y m)
     && (h <=? 23) && (mi <=? 59) && (s <=? 59)
  then Some (daysFromCivil y m d * msPerDay + h * msPerHour
             + mi * msPerMinute + s * msPerSecond)
  else None.

Definition num2 (a b : ascii) : option Z :=
  match Js.digit a, Js.digit b with
  | Some x, Some y => Some (10 * x + y)
  | _, _ => None
  end.

Definition num4 (a b c d : ascii) : option Z :=
  match num2 a b, num2 c d with
  | Some x, Some y => Some (100 * x + y)
  | _, _ => None
  end.

Definition isChar (c : ascii) (lit : string) : bool :=
  match lit with
  | String l EmptyString => Ascii.eqb c l
  | _ => false
  end.

(** The date-time forms [YYYY-MM-DDTHH:mm] and [YYYY-MM-DDTHH:mm:ss] with no
    zone designator, read as local time.  [None] for every other string,
    also for one of these shapes with a field out of range. *)
Definition isoLocal (s : string) : option Z :=
  match list_ascii_of_string s with
  | y1 :: y2 :: y3 :: y4 :: c1 :: m1 :: m2 :: c2 :: d1 :: d2 :: c3
       :: h1 :: h2 :: c4 :: n1 :: n2 :: tl =>
      if isChar c1 "-" && isChar c2 "-" && isChar c3 "T" && isChar c4 ":" then
        match num4 y1 y2 y3 y4, num2 m1 m2, num2 d1 d2, num2 h1 h2, num2 n1 n2 with
        | Some y, Some m, Some d, Some h, Some mi =>
            match tl with
            | [] => timeValue y m d h mi 0
            | [c5; s1; s2] =>
                if isChar c5 ":" then
                  match num2 s1 s2 with
                  | Some sec => timeValue y m d h mi sec
                  | None => None
                  end
                else None
            | _ => None
            end
        | _, _, _, _, _ => None
        end
      else None
  | _ => None
  end.

(** Two decimal digits of a number in [0, 99]. *)
Definition twoDigits (n : Z) : string :=
  String (ascii_of_nat (Z.to_nat (48 + n / 10)))
         (String (ascii_of_nat (Z.to_nat (48 + n mod 10))) EmptyString).

(** The abbreviated English month names of the default locale. *)
Definition monthAbbr (m : Z) : string :=
  nth (Z.to_nat (m - 1))
      ["Jan"; "Feb"; "Mar"; "Apr"; "May"; "Jun";
       "Jul"; "Aug"; "Sep"; "Oct"; "Nov"; "Dec"] "".

End Civil.

(* ===================================================================== *)
(** ** Effects: console, clock and exceptions *)
(* ===================================================================== *)

(** One call of [console.error(label, subject, error)]. *)
Record LogLine := mkLog {
  logLabel : string;
  logSubject : string;
  logError : Js.Error
}.

(** What a run has done to the outside so far: how often it has read the
    system clock, and the lines written to the console, oldest first. *)
Record World := mkWorld {
  reads : nat;
  console : list LogLine
}.

(** What the outside supplies: the successive readings of the system clock
    (as time values), and the results of the engine's [Date] constructor
    and of date-fns's [parseISO] on strings outside the ISO subset
    [Civil.isoLocal]. *)
Record Env := mkEnv {
  clock : nat -> Z;
  engineParse : string -> Date;
  parseISOOther : string -> Date
}.

Inductive Res (A : Type) :=
| Ok (a : A)
| Throw (e : Js.Error).

Arguments Ok {A} a.
Arguments Throw {A} e.

Definition Eff (A : Type) : Type := World -> Res A * World.

Definition ret {A} (a : A) : Eff A := fun w => (Ok a, w).

Definition bind {A B} (m : Eff A) (k : A -> Eff B) : Eff B :=
  fun w =>
    match m w with
    | (Ok a, w') => k a w'
    | (Throw e, w') => (Throw e, w')
    end.

Notation "'do' x <- m ;; k" := (bind m (fun x => k))
  (at level 10, x name, m at level 99, k at level 200,
   format "'[v' 'do'  x  <-  m  ;; '/' k ']'").

(** [throw e]. *)
Definition throw {A} (e : Js.Error) : Eff A := fun w => (Throw e, w).

(** [try { body } catch (e) { handler(e) }]. *)
Definition tryCatch {A} (body : Eff A) (handler : Js.Error -> Eff A) : Eff A :=
  fun w =>
    match body w with
    | (Ok a, w') => (Ok a, w')
    | (Throw e, w') => handler e w'
    end.

(** [console.error(label, subject, error)]. *)
Definition consoleError (label subject : string) (error : Js.Error) : Eff unit :=
  fun w => (Ok tt, mkWorld (reads w) (console w ++ [mkLog label subject error])).

(** [new Date()]: the next reading of the clock. *)
Definition newDateNow (env : Env) : Eff Date :=
  fun w => (Ok (ValidDate (clock env (reads w))), mkWorld (S (reads w)) (console w)).

(** [new Date(s)]. *)
Definition newDate (env : Env) (s : string) : Date :=
  match Civil.isoLocal s with
  | Some t => ValidDate t
  | None => engineParse env s
  end.

(** [array.filter(callback)] for a callback with effects: the elements are
    visited in order, and an exception of the callback ends the call. *)
Fixpoint filterE {A} (callback : A -> Eff bool) (array : list A) : Eff (list A) :=
  match array with
  | [] => ret []
  | x :: xs =>
      do keep <- callback x ;;
      do rest <- filterE callback xs ;;
      ret (if keep then x :: rest else rest)
  end.

(** [array.map(callback)] for a callback with effects. *)
Fixpoint mapE {A B} (callback : A -> Eff B) (array : list A) : Eff (list B) :=
  match array with
  | [] => ret []
  | x :: xs =>
      do y <- callback x ;;
      do rest <- mapE callback xs ;;
      ret (y :: rest)
  end.

(* ===================================================================== *)
(** ** date-fns *)
(* ===================================================================== *)

Module DateFns.

Inductive FormatPattern :=
| HH_mm   (* 'HH:mm' *)
| dd      (* 'dd' *)
| MMM.    (* 'MMM' *)

Definition isValid (d : Date) : bool :=
  match d with ValidDate _ => true | InvalidDate => false end.

Definition startOfDay (d : Date) : Date :=
  match d with
  | ValidDate t => ValidDate (t - t mod msPerDay)
  | InvalidDate => InvalidDate
  end.

Definition endOfDay (d : Date) : Date :=
  match d with
  | ValidDate t => ValidDate (t - t mod msPerDay + msPerDay - 1)
  | InvalidDate => InvalidDate
  end.

(** [setMinutes(date, minutes)]: the minutes field replaced, the others
    kept; a NaN (or missing) argument gives an invalid date. *)
Definition setMinutes (d : Date) (minutes : option Z) : Date :=
  match d, minutes with
  | ValidDate t, Some m => ValidDate (t - Civil.minuteOf t * msPerMinute + m * msPerMinute)
  | _, _ => InvalidDate
  end.

(** [setHours(date, hours)]. *)
Definition setHours (d : Date) (hours : option Z) : Date :=
  match d, hours with
  | ValidDate t, Some h => ValidDate (t - Civil.hourOf t * msPerHour + h * msPerHour)
  | _, _ => InvalidDate
  end.

(** [isWithinInterval(date, { start, end })]: the bounds are put in order
    first; every comparison with NaN is false. *)
Definition isWithinInterval (d start end_ : Date) : bool :=
  match d, start, end_ with
  | ValidDate t, ValidDate s, ValidDate e => (Z.min s e <=? t) && (t <=? Z.max s e)
  | _, _, _ => false
  end.

(** [differenceInDays(later, earlier)]: the number of full days between
    the two, truncated towards zero; [None] for NaN. *)
Definition differenceInDays (later earlier : Date) : option Z :=
  match later, earlier with
  | ValidDate l, ValidDate e => Some (Z.quot (l - e) msPerDay)
  | _, _ => None
  end.

Definition formatValid (t : Z) (p : FormatPattern) : string :=
  match p with
  | HH_mm => Civil.twoDigits (Civil.hourOf t) +:+ ":" +:+ Civil.twoDigits (Civil.minuteOf t)
  | dd => Civil.twoDigits (Civil.dayOfMonth t)
  | MMM => Civil.monthAbbr (Civil.monthOf t)
  end.

(** [format(date, pattern)]: throws a RangeError on an invalid date. *)
Definition format (d : Date) (p : FormatPattern) : Eff string :=
  match d with
  | ValidDate t => ret (formatValid t p)
  | InvalidDate => throw (Js.mkError "RangeError" "Invalid time value")
  end.

(** [parseISO(s)]. *)
Definition parseISO (env : Env) (s : string) : Date :=
  match Civil.isoLocal s with
  | Some t => ValidDate t
  | None => parseISOOther env s
  end.

End DateFns.

(* ===================================================================== *)
(** ** Records and view state *)
(* ===================================================================== *)

(** A telemetry record ([BatteryData], [RawBatteryData]): its [time] and
    its other properties by name. *)
Record Item := mkItem {
  time : string;
  fields : gmap string Js.Value
}.

(** [{ ...item, displayTime: label }]. *)
Definition withDisplayTime (item : Item) (label : string) : Item :=
  mkItem (time item) (<["displayTime" := Js.VString label]> (fields item)).

(** [item.displayTime]. *)
Definition displayTime (item : Item) : option Js.Value :=
  fields item !! "displayTime".

(** react-day-picker's [DateRange]. *)
Record DateRange := mkDateRange {
  from : option Date;
  to : option Date
}.

(** [date?.from] of a [DateRange | undefined]. *)
Definition rangeFrom (date : option DateRange) : option Date :=
  match date with
  | Some r => from r
  | None => None
  end.

(** [date.to ? endOfDay(date.to) : endOfDay(date.from)]. *)
Definition rangeEnd (date : option DateRange) (dfrom : Date) : Date :=
  match date with
  | Some (mkDateRange _ (Some dto)) => DateFns.endOfDay dto
  | _ => DateFns.endOfDay dfrom
  end.

(** The state [{ start, end }] of the two time inputs. *)
Record TimeRange := mkTimeRange {
  start : string;
  end_ : string
}.

Definition truthy (s : string) : bool :=
  match s with EmptyString => false | _ => true end.

(** [array.slice(start, end)]: a negative index counts from the end, and
    both indices are brought into [0, array.length]. *)
Definition slice {A} (start end_ : Z) (array : list A) : list A :=
  let len := Z.of_nat (length array) in
  let k := if start <? 0 then Z.max (len + start) 0 else Z.min start len in
  let final := if end_ <? 0 then Z.max (len + end_) 0 else Z.min end_ len in
  take (Z.to_nat (final - k)) (drop (Z.to_nat k) array).

(** [!data.length]. *)
Definition isEmpty {A} (data : list A) : bool :=
  match data with [] => true | _ => false end.

(* ===================================================================== *)
(** ** RawBatteryChart.tsx *)
(* ===================================================================== *)

Module RawBatteryChart.

(** The month table of [parseCustomTimestamp]; [None] is [undefined].
    (Keys inherited from [Object.prototype] are outside the model.) *)
Definition monthMap (key : string) : option string :=
  if String.eqb key "Jan" then Some "01"
  else if String.eqb key "Feb" then Some "02"
  else if String.eqb key "Mar" then Some "03"
  else if String.eqb key "Apr" then Some "04"
  else if String.eqb key "May" then Some "05"
  else if String.eqb key "Jun" then Some "06"
  else if String.eqb key "Jul" then Some "07"
  else if String.eqb key "Aug" then Some "08"
  else if String.eqb key "Sep" then Some "09"
  else if String.eqb key "Oct" then Some "10"
  else if String.eqb key "Nov" then Some "11"
  else if String.eqb key "Dec" then Some "12"
  else None.

(** A value as a template literal prints it. *)
Definition interpolate (v : option string) : string :=
  match v with
  | Some s => s
  | None => "undefined"
  end.

(** The [try] block of [parseCustomTimestamp], lines 25-47. *)
Definition parseParts (env : Env) (timestamp : string) : Eff Date :=
  let parts := Js.split " " timestamp in
  if (length parts =? 6)%nat then
    let month := monthMap (nth 1 parts "") in
    let day := Js.padStart 2 "0" (nth 2 parts "") in
    let time := nth 3 parts "" in
    let year := nth 5 parts "" in
    ret (newDate env (year +:+ "-" +:+ interpolate month +:+ "-" +:+ day
                      +:+ "T" +:+ time))
  else throw (Js.mkError "Error" "Invalid timestamp format").

(** [parseCustomTimestamp(timestamp)], lines 23-52. *)
Definition parseCustomTimestamp (env : Env) (timestamp : string) : Eff Date :=
  tryCatch
    (parseParts env timestamp)
    (fun error =>
       do _ <- consoleError "Error parsing timestamp:" timestamp error ;;
       newDateNow env).

(** The callback of the date filter, lines 82-90. *)
Definition inDateRange (env : Env) (from to : Date) (item : Item) : Eff bool :=
  tryCatch
    (do itemDate <- parseCustomTimestamp env (time item) ;;
     ret (DateFns.isWithinInterval itemDate from to))
    (fun e =>
       do _ <- consoleError "Invalid date format:" (time item) e ;;
       ret false).

(** The date filter, lines 77-91. *)
Definition dateFilter (env : Env) (data : list Item) (dateRange : option DateRange)
  : Eff (list Item) :=
  match rangeFrom dateRange with
  | Some dfrom =>
      let from := DateFns.startOfDay dfrom in
      let to := rangeEnd dateRange dfrom in
      filterE (inDateRange env from to) data
  | None => ret data
  end.

(** The callback of the time-of-day filter, lines 97-108. *)
Definition inTimeRange (env : Env) (startHours startMinutes endHours endMinutes : option Z)
    (item : Item) : Eff bool :=
  tryCatch
    (do itemDate <- parseCustomTimestamp env (time item) ;;
     let itemTime := DateFns.setHours (DateFns.setMinutes itemDate (Some 0)) (Some 0) in
     let startTime := DateFns.setHours (DateFns.setMinutes itemDate startMinutes) startHours in
     let endTime := DateFns.setHours (DateFns.setMinutes itemDate endMinutes) endHours in
     ret (DateFns.isWithinInterval itemTime startTime endTime))
    (fun e =>
       do _ <- consoleError "Invalid time format:" (time item) e ;;
       ret false).

(** The time-of-day filter, lines 93-110. *)
Definition timeFilter (env : Env) (processedData : list Item) (timeRange : TimeRange)
  : Eff (list Item) :=
  if truthy (start timeRange) && truthy (end_ timeRange) then
    let startParts := map Js.Number (Js.split ":" (start timeRange)) in
    let endParts := map Js.Number (Js.split ":" (end_ timeRange)) in
    let startHours := nth 0 startParts None in
    let startMinutes := nth 1 startParts None in
    let endHours := nth 0 endParts None in
    let endMinutes := nth 1 endParts None in
    filterE (inTimeRange env startHours startMinutes endHours endMinutes) processedData
  else ret processedData.

(** The callback of the labelling pass, lines 112-126. *)
Definition label (env : Env) (item : Item) : Eff Item :=
  do displayTime <-
     tryCatch
       (do itemDate <- parseCustomTimestamp env (time item) ;;
        DateFns.format itemDate DateFns.HH_mm)
       (fun e =>
          do _ <- consoleError "Error formatting date:" (time item) e ;;
          ret (time item)) ;;
  ret (withDisplayTime item displayTime).

(** The two filters in sequence: the records the labelling pass receives. *)
Definition rangeFilter (env : Env) (data : list Item)
    (dateRange : option DateRange) (timeRange : TimeRange) : Eff (list Item) :=
  do processedData <- dateFilter env data dateRange ;;
  timeFilter env processedData timeRange.

(** [filteredData], lines 74-127. *)
Definition filteredData (env : Env) (data : list Item)
    (dateRange : option DateRange) (timeRange : TimeRange) : Eff (list Item) :=
  if isEmpty data then ret []
  else
    do processedData <- rangeFilter env data dateRange timeRange ;;
    mapE (label env) processedData.

(** The initial state of the time inputs, line 65. *)
Definition initialTimeRange : TimeRange := mkTimeRange "00:00" "23:59".

End RawBatteryChart.

(* ===================================================================== *)
(** ** BatteryChart.tsx, first revision (lines 1-197) *)
(* ===================================================================== *)

Module BatteryChartV1.

(** The callback of the date filter, lines 45-53. *)
Definition inDateRange (env : Env) (from to : Date) (item : Item) : Eff bool :=
  tryCatch
    (let itemDate := DateFns.parseISO env (time item) in
     ret (DateFns.isWithinInterval itemDate from to))
    (fun e =>
       do _ <- consoleError "Invalid date format:" (time item) e ;;
       ret false).

(** The date filter, lines 39-54. *)
Definition dateFilter (env : Env) (data : list Item) (date : option DateRange)
  : Eff (list Item) :=
  match rangeFrom date with
  | Some dfrom =>
      let from := DateFns.startOfDay dfrom in
      let to := rangeEnd date dfrom in
      filterE (inDateRange env from to) data
  | None => ret data
  end.

(** The callback of the labelling pass, lines 56-59. *)
Definition label (env : Env) (item : Item) : Eff Item :=
  do displayTime <- DateFns.format (DateFns.parseISO env (time item)) DateFns.HH_mm ;;
  ret (withDisplayTime item displayTime).

(** [filteredData], lines 36-60. *)
Definition filteredData (env : Env) (data : list Item) (date : option DateRange)
  : Eff (list Item) :=
  if isEmpty data then ret []
  else
    do processedData <- dateFilter env data date ;;
    mapE (label env) processedData.

(** Lines 67-71. *)
Definition maxScrollIndex (filteredLength zoomLevel : Z) : Z :=
  Z.max 0 (filteredLength - zoomLevel).

Definition clampedScrollIndex (filteredLength zoomLevel scrollIndex : Z) : Z :=
  Z.min scrollIndex (maxScrollIndex filteredLength zoomLevel).

Definition visibleData {A} (filtered : list A) (zoomLevel scrollIndex : Z) : list A :=
  let clamped := clampedScrollIndex (Z.of_nat (length filtered)) zoomLevel scrollIndex in
  slice clamped (clamped + zoomLevel) filtered.

(** The updaters of the zoom buttons, lines 116 and 119. *)
Definition zoomIn (prev : Z) : Z := Z.max 10 (prev - 30).
Definition zoomOut (dataLength prev : Z) : Z := Z.min dataLength (prev + 30).

End BatteryChartV1.

(* ===================================================================== *)
(** ** BatteryChart.tsx, second revision (lines 198-522) *)
(* ===================================================================== *)

Module BatteryChart.

(** The callback of the date filter, lines 253-261. *)
Definition inDateRange (env : Env) (from to : Date) (item : Item) : Eff bool :=
  tryCatch
    (let itemDate := newDate env (time item) in
     ret (DateFns.isValid itemDate && DateFns.isWithinInterval itemDate from to))
    (fun e =>
       do _ <- consoleError "Invalid date format:" (time item) e ;;
       ret false).

(** [daysDifference === 0], [daysDifference <= n]: false on NaN. *)
Definition numEq (x : option Z) (n : Z) : bool :=
  match x with Some v => v =? n | None => false end.
Definition numLe (x : option Z) (n : Z) : bool :=
  match x with Some v => v <=? n | None => false end.

(** The pattern chosen in lines 268-277. *)
Definition patternFor (daysDifference : option Z) : DateFns.FormatPattern :=
  if numEq daysDifference 0 then DateFns.HH_mm
  else if numLe daysDifference 7 then DateFns.HH_mm
  else if numLe daysDifference 31 then DateFns.dd
  else DateFns.MMM.

(** The callback of the labelling pass under a selection, lines 263-290. *)
Definition labelInRange (env : Env) (daysDifference : option Z) (item : Item) : Eff Item :=
  tryCatch
    (let itemDate := newDate env (time item) in
     if negb (DateFns.isValid itemDate) then throw (Js.mkError "Error" "Invalid date")
     else
       do formattedTime <- DateFns.format itemDate (patternFor daysDifference) ;;
       ret (withDisplayTime item formattedTime))
    (fun e =>
       do _ <- consoleError "Error formatting date:" (time item) e ;;
       ret (withDisplayTime item (time item))).

(** The callback of the labelling pass without a selection, lines 292-310. *)
Definition labelPlain (env : Env) (item : Item) : Eff Item :=
  tryCatch
    (let itemDate := newDate env (time item) in
     if negb (DateFns.isValid itemDate) then throw (Js.mkError "Error" "Invalid date")
     else
       do shown <- (if Js.includes "T" (time item)
                    then DateFns.format itemDate DateFns.HH_mm
                    else ret (time item)) ;;
       ret (withDisplayTime item shown))
    (fun e =>
       do _ <- consoleError "Error parsing date:" (time item) e ;;
       ret (withDisplayTime item (time item))).

(** The span of the selection, lines 249-251. *)
Definition selectionSpan (date : option DateRange) (dfrom : Date) : option Z :=
  DateFns.differenceInDays (rangeEnd date dfrom) (DateFns.startOfDay dfrom).

(** The date filter, lines 246-261; without a selection, the copy of the
    input. *)
Definition dateFilter (env : Env) (data : list Item) (date : option DateRange)
  : Eff (list Item) :=
  match rangeFrom date with
  | Some dfrom =>
      let from := DateFns.startOfDay dfrom in
      let to := rangeEnd date dfrom in
      filterE (inDateRange env from to) data
  | None => ret data
  end.

(** The labelling pass, lines 263-290 and 292-310. *)
Definition labelPass (env : Env) (processedData : list Item) (date : option DateRange)
  : Eff (list Item) :=
  match rangeFrom date with
  | Some dfrom => mapE (labelInRange env (selectionSpan date dfrom)) processedData
  | None => mapE (labelPlain env) processedData
  end.

(** [filteredData], lines 243-314. *)
Definition filteredData (env : Env) (data : list Item) (date : option DateRange)
  : Eff (list Item) :=
  if isEmpty data then ret []
  else
    do processedData <- dateFilter env data date ;;
    labelPass env processedData date.

(** The scroll and zoom state, lines 230-233. *)
Record Window := mkWindow {
  scrollIndex : Z;
  maxScrollIndex : Z;
  clampedScrollIndex : Z;
  zoomLevel : Z
}.

Definition initialWindow : Window := mkWindow 0 0 0 50.

(** The effect of lines 336-340, run after [filteredData], [scrollIndex]
    or [zoomLevel] changed. *)
Definition syncWindow (filteredLength : Z) (w : Window) : Window :=
  let maxIndex := Z.max 0 (filteredLength - zoomLevel w) in
  mkWindow (scrollIndex w) maxIndex (Z.min (scrollIndex w) maxIndex) (zoomLevel w).

(** [paginatedData], lines 342-344. *)
Definition paginatedData {A} (filtered : list A) (w : Window) : list A :=
  slice (clampedScrollIndex w) (clampedScrollIndex w + zoomLevel w) filtered.

(** The updaters of the wheel handler and of the zoom buttons, lines 324,
    326, 353 and 360. *)
Definition zoomIn (prev : Z) : Z := Z.max 10 (prev - 10).
Definition zoomOut (dataLength prev : Z) : Z := Z.min dataLength (prev + 10).

End BatteryChart.

(* ===================================================================== *)
(** ** Predicates of the specification and sample inputs *)
(* ===================================================================== *)

(** A computation that returns from every world. *)
Definition returns {A} (m : Eff A) : Prop :=
  forall w, exists a w', m w = (Ok a, w').

(** The output record [o] carries every property of the input record [i]
    unchanged, [displayTime] apart, which it holds as a string. *)
Definition sameButDisplayTime (i o : Item) : Prop :=
  time o = time i
  /\ (forall k, k <> "displayTime" -> fields o !! k = fields i !! k)
  /\ exists shown, displayTime o = Some (Js.VString shown).

(** [out] is the labelled image of a subsequence of [data]. *)
Definition labelledSubsequence (data out : list Item) : Prop :=
  exists kept, kept `sublist_of` data /\ Forall2 sameButDisplayTime kept out.

(** The window size lies between the floor of 10 and [upper]. *)
Definition sizeInRange (upper size : Z) : Prop := 10 <= size <= upper.

(** The record [o] has a valid date and the label the specification's
    table gives for a selection of [span] whole days: hour:minute for 0 to
    7, the two-digit day of the month for 8 to 31, the abbreviated month
    name above 31. *)
Definition labelledAtGranularity (env : Env) (span : Z) (o : Item) : Prop :=
  exists t, newDate env (time o) = ValidDate t
    /\ (0 <= span <= 7 ->
        displayTime o = Some (Js.VString (DateFns.formatValid t DateFns.HH_mm)))
    /\ (8 <= span <= 31 ->
        displayTime o = Some (Js.VString (DateFns.formatValid t DateFns.dd)))
    /\ (31 < span ->
        displayTime o = Some (Js.VString (DateFns.formatValid t DateFns.MMM))).

(** 2024-01-04T00:00 and 2024-02-10T00:00 local time. *)
Definition jan4 : Date := ValidDate 1704326400000.
Definition feb10 : Date := ValidDate 1707523200000.

(** A token of a space-separated timestamp. *)
Definition noSpace (s : string) : Prop := Js.includes " " s = false.

(** 2026-11-02T10:04:05 local time, and an environment whose clock starts
    there and advances by a millisecond per reading, on an engine that
    rejects every string outside the ISO subset. *)
Definition sampleNow : Z := 1793613845000.

Definition sampleEnv : Env :=
  mkEnv (fun k => sampleNow + Z.of_nat k) (fun _ => InvalidDate) (fun _ => InvalidDate).

Definition freshWorld : World := mkWorld 0 [].

(** The selection of that day alone: 2026-11-02T00:00 local time as the
    day picker hands it over, and no end date. *)
Definition sampleToday : option DateRange :=
  Some (mkDateRange (Some (ValidDate 1793577600000)) None).

(** 2024-01-01T00:00 local time, as the day picker hands it over. *)
Definition jan1 : Date := ValidDate 1704067200000.

(** A record with one payload property. *)
Definition sampleItem (timestamp : string) : Item :=
  mkItem timestamp (<["soc" := Js.VNumber 80]> ∅).

(* ===================================================================== *)
(** ** The metric checkboxes *)
(* ===================================================================== *)

Module Metrics.

(** The state [visibleMetrics] of BatteryChart (both revisions, lines 18-23
    and 221-226) and of RawBatteryChart (lines 59-62): a flag per metric
    name. *)
Definition initialChart : gmap string bool :=
  <["soc" := true]> (<["soh" := true]> (<["socPredicted" := true]>
    (<["sohPredicted" := true]> ∅))).

Definition initialRaw : gmap string bool :=
  <["packSOC" := true]> (<["packVoltage" := true]> ∅).

(** [prev[metric]] read as a condition: a missing property is falsy. *)
Definition flag (prev : gmap string bool) (metric : string) : bool :=
  default false (prev !! metric).

(** The updater of [toggleMetric]:
    [prev => ({ ...prev, [metric]: !prev[metric] })]. *)
Definition toggleMetric (metric : string) (prev : gmap string bool) : gmap string bool :=
  <[metric := negb (flag prev metric)]> prev.

(** The lines BatteryChart draws, in order: one per metric whose flag
    holds. *)
Definition chartLines (visibleMetrics : gmap string bool) : list string :=
  List.filter (flag visibleMetrics) ["soc"; "soh"; "socPredicted"; "sohPredicted"].

End Metrics.

(* ===================================================================== *)
(** ** Decimal numerals *)
(* ===================================================================== *)

Module JsNumber.

Definition digitChar (d : Z) : ascii := ascii_of_nat (Z.to_nat (48 + d)).

Fixpoint decimalFuel (fuel : nat) (n : Z) (acc : string) : string :=
  match fuel with
  | O => acc
  | S k =>
      let acc' := String (digitChar (n mod 10)) acc in
      if n <? 10 then acc' else decimalFuel k (n / 10) acc'
  end.

(** [n.toString()] of an integer [n >= 0] (below 1e21, where the engine
    switches to exponent notation). *)
Definition decimal (n : Z) : string :=
  decimalFuel (S (Z.to_nat (Z.log2 n))) n "".

(** [n.toFixed(2)] of an integer [n] (of magnitude below 1e21). *)
Definition toFixed2 (n : Z) : string :=
  (if n <? 0 then "-" else "") +:+ decimal (Z.abs n) +:+ ".00".

End JsNumber.

(* ===================================================================== *)
(** ** BatteryMetricsCards *)
(* ===================================================================== *)

Module BatteryMetricsCards.

(** [item.soc !== null]: [undefined] is not [null]. *)
Definition socIsNotNull (item : Item) : bool :=
  match fields item !! "soc" with
  | Some Js.VNull => false
  | _ => true
  end.

(** [{ soc: null, time: '' }] and [{ socPredicted: null, time: '' }]. *)
Definition noActualData : Item := mkItem "" (<["soc" := Js.VNull]> ∅).
Definition noPredictions : Item := mkItem "" (<["socPredicted" := Js.VNull]> ∅).

(** [data.find(item => item.soc !== null) || { soc: null, time: '' }]. *)
Definition latestActualData (data : list Item) : Item :=
  match List.find socIsNotNull data with
  | Some item => item
  | None => noActualData
  end.

(** [data && data.length > 0 ? data[data.length - 1]
                             : { socPredicted: null, time: '' }]. *)
Definition predictions (data : list Item) : Item :=
  match last data with
  | Some item => item
  | None => noPredictions
  end.

(** [formatPercentage(value)]: [value !== null ? value.toFixed(2) : 'N/A'];
    a value that is not a number has no [toFixed], and calling it throws a
    TypeError. *)
Definition formatPercentage (value : option Js.Value) : Res string :=
  match value with
  | Some Js.VNull => Ok "N/A"
  | Some (Js.VNumber n) => Ok (JsNumber.toFixed2 n)
  | Some (Js.VString _) => Throw (Js.mkError "TypeError" "value.toFixed is not a function")
  | None => Throw (Js.mkError "TypeError" "Cannot read properties of undefined")
  end.

(** The two numbers of the State of Charge card. *)
Definition socText (data : list Item) : Res string :=
  formatPercentage (fields (latestActualData data) !! "soc").

Definition predictedText (data : list Item) : Res string :=
  formatPercentage (fields (predictions data) !! "socPredicted").

End BatteryMetricsCards.

(* ===================================================================== *)
(** ** dynamoDBService.ts: generateFallbackData *)
(* ===================================================================== *)

Module DynamoDBService.

(** [getSeconds()] of a time value. *)
Definition secondOf (t : Z) : Z := (t mod msPerMinute) / msPerSecond.

(** The year as the pattern [yyyy] prints it: the calendar year (year 0 is
    1 BC, printed 1), padded to four digits. *)
Definition yearText (y : Z) : string :=
  Js.padStart 4 "0" (JsNumber.decimal (if 0 <? y then y else 1 - y)).

(** A valid date under the pattern ["yyyy-MM-dd'T'HH:mm:ss"]. *)
Definition timestampOf (t : Z) : string :=
  let '(y, m, d) := Civil.civilFromDays (t / msPerDay) in
  yearText y +:+ "-" +:+ Civil.twoDigits m +:+ "-" +:+ Civil.twoDigits d
  +:+ "T" +:+ Civil.twoDigits (Civil.hourOf t) +:+ ":"
  +:+ Civil.twoDigits (Civil.minuteOf t) +:+ ":" +:+ Civil.twoDigits (secondOf t).

(** [format(date, "yyyy-MM-dd'T'HH:mm:ss")]. *)
Definition formatTimestamp (d : Date) : Eff string :=
  match d with
  | ValidDate t => ret (timestampOf t)
  | InvalidDate => throw (Js.mkError "RangeError" "Invalid time value")
  end.

(** [addHours(date, amount)] and [subHours(date, amount)]. *)
Definition addHours (d : Date) (amount : Z) : Date :=
  match d with
  | ValidDate t => ValidDate (t + amount * msPerHour)
  | InvalidDate => InvalidDate
  end.

Definition subHours (d : Date) (amount : Z) : Date := addHours d (- amount).

(** The numbers the expressions over [Math.random()] evaluate to, by the
    index of the record they are drawn for: [Math.floor(...)] of the
    historical and of the future records, and the historical record's
    [socValue + (Math.random() * 6 - 3)]. *)
Record Random := mkRandom {
  socValue : nat -> Z;
  socPredicted : nat -> Js.Value;
  futurePredicted : nat -> Z
}.

(** The callbacks of the two [Array.from] calls, lines 61-70 and 73-77. *)
Definition historical (rnd : Random) (now : Date) (points : nat) (i : nat) : Eff Item :=
  do pointTime <- formatTimestamp (subHours now (Z.of_nat points - Z.of_nat i - 1)) ;;
  ret (mkItem pointTime
         (<["soc" := Js.VNumber (socValue rnd i)]>
            (<["socPredicted" := socPredicted rnd i]> ∅))).

Definition future (rnd : Random) (now : Date) (i : nat) : Eff Item :=
  do pointTime <- formatTimestamp (addHours now (Z.of_nat i + 1)) ;;
  ret (mkItem pointTime
         (<["soc" := Js.VNull]>
            (<["socPredicted" := Js.VNumber (futurePredicted rnd i)]> ∅))).

(** [generateFallbackData(points)], lines 58-80. *)
Definition generateFallbackData (env : Env) (rnd : Random) (points : nat) : Eff (list Item) :=
  do now <- newDateNow env ;;
  do currentData <- mapE (historical rnd now points) (seq 0 points) ;;
  do predictions <- mapE (future rnd now) (seq 0 12) ;;
  ret (currentData ++ predictions)%list.

(** The instant of a time value to the second. *)
Definition toSecond (t : Z) : Z := t - t mod msPerSecond.

(** The time values of the years 1 to 9999: from 0001-01-01T00:00:00 to
    the last millisecond of 9999-12-31. *)
Definition fourDigitYear (t : Z) : Prop := -62135596800000 <= t < 253402300800000.

(** Draws with fixed values. *)
Definition sampleRandom : Random :=
  mkRandom (fun i => 60 + Z.of_nat i) (fun _ => Js.VNumber 75) (fun i => 50 + Z.of_nat i).

End DynamoDBService.

(* ===================================================================== *)
(** ** Predicates and closed forms for the components above *)
(* ===================================================================== *)

(** The record's timestamp is of the ISO local form [Civil.isoLocal]
    reads. *)
Definition isIsoLocal (item : Item) : Prop :=
  exists t, Civil.isoLocal (time item) = Some t.

(** The record labelled with characters 11 to 15 of its timestamp, the
    hour:minute an ISO timestamp spells. *)
Definition writtenTime (item : Item) : Item :=
  withDisplayTime item (substring 11 5 (time item)).

(** [parseCustomTimestamp] gives the record a valid date, from every
    world. *)
Definition hasDate (env : Env) (item : Item) : Prop :=
  forall w, exists t w',
    RawBatteryChart.parseCustomTimestamp env (time item) w = (Ok (ValidDate t), w').

(** The instant, to the second, of the record of index [i] in the fallback
    data of [points] historical records generated at [now]. *)
Definition fallbackInstant (now : Z) (points i : nat) : Z :=
  DynamoDBService.toSecond (now + (Z.of_nat i + 1 - Z.of_nat points) * msPerHour).

(** The records [generateFallbackData] builds at the clock reading [now]. *)
Definition historicalRecord (rnd : DynamoDBService.Random) (now : Z) (points i : nat) : Item :=
  mkItem (DynamoDBService.timestampOf (now + - (Z.of_nat points - Z.of_nat i - 1) * msPerHour))
    (<["soc" := Js.VNumber (DynamoDBService.socValue rnd i)]>
       (<["socPredicted" := DynamoDBService.socPredicted rnd i]> ∅)).

Definition futureRecord (rnd : DynamoDBService.Random) (now : Z) (i : nat) : Item :=
  mkItem (DynamoDBService.timestampOf (now + (Z.of_nat i + 1) * msPerHour))
    (<["soc" := Js.VNull]>
       (<["socPredicted" := Js.VNumber (DynamoDBService.futurePredicted rnd i)]> ∅)).

Definition fallbackRecords (rnd : DynamoDBService.Random) (now : Z) (points : nat) : list Item :=
  (map (historicalRecord rnd now points) (seq 0 points)
   ++ map (futureRecord rnd now) (seq 0 12))%list.






(** A test that holds of [fuel] consecutive integers from [z]. *)
Fixpoint allFrom (fuel : nat) (z : Z) (p : Z -> bool) : bool :=
  match fuel with
  | O => true
  | S k => p z && allFrom k (z + 1) p
  end.

(** The year's text is four digits that read back as the year. *)
Definition yearReadsBack (y : Z) : bool :=
  match DynamoDBService.yearText y with
  | String a (String b (String c (String e EmptyString))) =>
      match Civil.num4 a b c e with
      | Some v => v =? y
      | None => false
      end
  | _ => false
  end.

(* ===================================================================== *)
(** ** The sample dates *)
(* ===================================================================== *)

Lemma sample_dates env :
  newDate env "2024-01-01T00:00:00" = jan1
  /\ newDate env "2024-01-04T00:00:00" = jan4
  /\ newDate env "2024-02-10T00:00:00" = feb10
  /\ newDate env "2026-11-02T10:04:05" = ValidDate sampleNow
  /\ Some (mkDateRange (Some (newDate env "2026-11-02T00:00:00")) None) = sampleToday
  /\ DateFns.formatValid sampleNow DateFns.HH_mm = "10:04"
  /\ DateFns.formatValid sampleNow DateFns.dd = "02"
  /\ DateFns.formatValid sampleNow DateFns.MMM = "Nov".
Proof. repeat split. Qed.

Lemma civil_round_trip_samples :
  Civil.civilFromDays (Civil.daysFromCivil 1970 1 1) = (1970, 1, 1)
  /\ Civil.civilFromDays (Civil.daysFromCivil 2024 2 29) = (2024, 2, 29)
  /\ Civil.civilFromDays (Civil.daysFromCivil 2024 12 31) = (2024, 12, 31)
  /\ Civil.civilFromDays (Civil.daysFromCivil 1969 12 31) = (1969, 12, 31)
  /\ Civil.daysFromCivil 1970 1 1 = 0
  /\ Civil.isoLocal "2023-02-29T00:00:00" = None.
Proof. repeat split. Qed.

(* ===================================================================== *)
(** ** The effect monad *)
(* ===================================================================== *)

Lemma bind_Ok {A B} (m : Eff A) (k : A -> Eff B) w a w' :
  m w = (Ok a, w') -> bind m k w = k a w'.
Proof. intros H. unfold bind. now rewrite H. Qed.

Lemma bind_Throw {A B} (m : Eff A) (k : A -> Eff B) w e w' :
  m w = (Throw e, w') -> bind m k w = (Throw e, w').
Proof. intros H. unfold bind. now rewrite H. Qed.

Lemma bind_Ok_inv {A B} (m : Eff A) (k : A -> Eff B) w b w2 :
  bind m k w = (Ok b, w2) ->
  exists a w1, m w = (Ok a, w1) /\ k a w1 = (Ok b, w2).
Proof.
  unfold bind. destruct (m w) as [[a | e] w1]; intros H.
  - exists a, w1. split; [reflexivity | exact H].
  - discriminate H.
Qed.

Lemma returns_ret {A} (a : A) : returns (ret a).
Proof. intros w. exists a, w. reflexivity. Qed.

Lemma returns_bind {A B} (m : Eff A) (k : A -> Eff B) :
  returns m -> (forall a, returns (k a)) -> returns (bind m k).
Proof.
  intros Hm Hk w. destruct (Hm w) as (a & w1 & E).
  destruct (Hk a w1) as (b & w2 & E2).
  exists b, w2. rewrite (bind_Ok _ _ _ _ _ E). exact E2.
Qed.

Lemma returns_tryCatch {A} (body : Eff A) (handler : Js.Error -> Eff A) :
  (forall e, returns (handler e)) -> returns (tryCatch body handler).
Proof.
  intros Hh w. unfold tryCatch.
  destruct (body w) as [[a | e] w1].
  - exists a, w1. reflexivity.
  - apply Hh.
Qed.

Lemma returns_consoleError label subject e : returns (consoleError label subject e).
Proof. intros w. eexists _, _. reflexivity. Qed.

Lemma returns_newDateNow env : returns (newDateNow env).
Proof. intros w. eexists _, _. reflexivity. Qed.

Create HintDb returns.
#[local] Hint Resolve returns_ret returns_consoleError returns_newDateNow : returns.
#[local] Hint Extern 2 (returns (bind _ _)) => apply returns_bind; [| intros ?] : returns.
#[local] Hint Extern 2 (returns (tryCatch _ _)) => apply returns_tryCatch; intros ? : returns.

(** A filter whose callback always returns, returns a subsequence. *)
Lemma filterE_sublist {A} (callback : A -> Eff bool) :
  (forall x, returns (callback x)) ->
  forall (array : list A) w,
    exists kept w', filterE callback array w = (Ok kept, w')
                    /\ kept `sublist_of` array.
Proof.
  intros Hc array. induction array as [| x xs IH]; intros w.
  - exists [], w. split; [reflexivity | constructor].
  - destruct (Hc x w) as (keep & w1 & Ex).
    destruct (IH w1) as (rest & w2 & Er & Hsub).
    exists (if keep then x :: rest else rest), w2. split.
    + cbn [filterE]. rewrite (bind_Ok _ _ _ _ _ Ex).
      rewrite (bind_Ok _ _ _ _ _ Er). reflexivity.
    + destruct keep; [apply sublist_skip | apply sublist_cons]; exact Hsub.
Qed.

(** A map whose callback always returns a related value, returns a related
    list. *)
Lemma mapE_Forall2 {A B} (callback : A -> Eff B) (R : A -> B -> Prop) :
  (forall x w, exists y w', callback x w = (Ok y, w') /\ R x y) ->
  forall (array : list A) w,
    exists out w', mapE callback array w = (Ok out, w') /\ Forall2 R array out.
Proof.
  intros Hc array. induction array as [| x xs IH]; intros w.
  - exists [], w. split; [reflexivity | constructor].
  - destruct (Hc x w) as (y & w1 & Ex & HR).
    destruct (IH w1) as (rest & w2 & Er & HF).
    exists (y :: rest), w2. split.
    + cbn [mapE]. rewrite (bind_Ok _ _ _ _ _ Ex).
      rewrite (bind_Ok _ _ _ _ _ Er). reflexivity.
    + constructor; assumption.
Qed.

(** A map that returns, returns a list related to its input as far as the
    callback's results are. *)
Lemma mapE_Ok_Forall2 {A B} (callback : A -> Eff B) (R : A -> B -> Prop) :
  (forall x w y w', callback x w = (Ok y, w') -> R x y) ->
  forall (array : list A) w out w',
    mapE callback array w = (Ok out, w') -> Forall2 R array out.
Proof.
  intros Hc array. induction array as [| x xs IH]; intros w out w' H.
  - cbn in H. injection H as <- _. constructor.
  - cbn [mapE] in H.
    apply bind_Ok_inv in H as (y & w1 & Ex & H).
    apply bind_Ok_inv in H as (rest & w2 & Er & H).
    injection H as <- _.
    constructor; [eapply Hc, Ex | eapply IH, Er].
Qed.

(* ===================================================================== *)
(** ** The callbacks return *)
(* ===================================================================== *)

Lemma withDisplayTime_frame (item : Item) (shown : string) :
  sameButDisplayTime item (withDisplayTime item shown).
Proof.
  unfold sameButDisplayTime, withDisplayTime, displayTime. cbn.
  split; [reflexivity | split].
  - intros k Hk. apply lookup_insert_ne. congruence.
  - exists shown. apply lookup_insert_eq.
Qed.

Lemma parseCustomTimestamp_returns env timestamp :
  returns (RawBatteryChart.parseCustomTimestamp env timestamp).
Proof.
  unfold RawBatteryChart.parseCustomTimestamp. auto with returns.
Qed.

Lemma catch_false_returns label subject (body : Eff bool) :
  returns (tryCatch body (fun e => do _ <- consoleError label subject e ;; ret false)).
Proof. auto with returns. Qed.

Lemma raw_inDateRange_returns env from to item :
  returns (RawBatteryChart.inDateRange env from to item).
Proof. apply catch_false_returns. Qed.

Lemma raw_inTimeRange_returns env sh sm eh em item :
  returns (RawBatteryChart.inTimeRange env sh sm eh em item).
Proof. apply catch_false_returns. Qed.

Lemma v1_inDateRange_returns env from to item :
  returns (BatteryChartV1.inDateRange env from to item).
Proof. apply catch_false_returns. Qed.

Lemma v2_inDateRange_returns env from to item :
  returns (BatteryChart.inDateRange env from to item).
Proof. apply catch_false_returns. Qed.

Lemma raw_dateFilter_sublist env data dateRange w :
  exists kept w', RawBatteryChart.dateFilter env data dateRange w = (Ok kept, w')
                  /\ kept `sublist_of` data.
Proof.
  unfold RawBatteryChart.dateFilter. destruct (rangeFrom dateRange) as [dfrom |].
  - apply filterE_sublist. intros x. apply raw_inDateRange_returns.
  - exists data, w. split; reflexivity.
Qed.

Lemma raw_timeFilter_sublist env processedData timeRange w :
  exists kept w', RawBatteryChart.timeFilter env processedData timeRange w = (Ok kept, w')
                  /\ kept `sublist_of` processedData.
Proof.
  unfold RawBatteryChart.timeFilter.
  destruct (truthy (start timeRange) && truthy (end_ timeRange)).
  - apply filterE_sublist. intros x. apply raw_inTimeRange_returns.
  - exists processedData, w. split; reflexivity.
Qed.

Lemma raw_rangeFilter_sublist env data dateRange timeRange w :
  exists kept w', RawBatteryChart.rangeFilter env data dateRange timeRange w = (Ok kept, w')
                  /\ kept `sublist_of` data.
Proof.
  destruct (raw_dateFilter_sublist env data dateRange w) as (k1 & w1 & E1 & S1).
  destruct (raw_timeFilter_sublist env k1 timeRange w1) as (k2 & w2 & E2 & S2).
  exists k2, w2. split.
  - unfold RawBatteryChart.rangeFilter. rewrite (bind_Ok _ _ _ _ _ E1). exact E2.
  - etransitivity; eassumption.
Qed.

Lemma v1_dateFilter_sublist env data date w :
  exists kept w', BatteryChartV1.dateFilter env data date w = (Ok kept, w')
                  /\ kept `sublist_of` data.
Proof.
  unfold BatteryChartV1.dateFilter. destruct (rangeFrom date) as [dfrom |].
  - apply filterE_sublist. intros x. apply v1_inDateRange_returns.
  - exists data, w. split; reflexivity.
Qed.

Lemma v2_dateFilter_sublist env data date w :
  exists kept w', BatteryChart.dateFilter env data date w = (Ok kept, w')
                  /\ kept `sublist_of` data.
Proof.
  unfold BatteryChart.dateFilter. destruct (rangeFrom date) as [dfrom |].
  - apply filterE_sublist. intros x. apply v2_inDateRange_returns.
  - exists data, w. split; reflexivity.
Qed.

(** The labelling callbacks: what they return is the record with a
    [displayTime]. *)
Lemma raw_label_spec env item w :
  exists shown w',
    RawBatteryChart.label env item w = (Ok (withDisplayTime item shown), w').
Proof.
  unfold RawBatteryChart.label.
  assert (returns (tryCatch
            (do itemDate <- RawBatteryChart.parseCustomTimestamp env (time item) ;;
             DateFns.format itemDate DateFns.HH_mm)
            (fun e => do _ <- consoleError "Error formatting date:" (time item) e ;;
                      ret (time item)))) as Hr.
  { auto with returns. }
  destruct (Hr w) as (shown & w1 & E).
  exists shown, w1. rewrite (bind_Ok _ _ _ _ _ E). reflexivity.
Qed.

Lemma v1_label_spec env item w y w' :
  BatteryChartV1.label env item w = (Ok y, w') ->
  exists shown, y = withDisplayTime item shown.
Proof.
  unfold BatteryChartV1.label. intros H.
  apply bind_Ok_inv in H as (shown & w1 & _ & H).
  injection H as <- _. now exists shown.
Qed.

Lemma v2_labelInRange_spec env span item w :
  exists shown w',
    BatteryChart.labelInRange env span item w = (Ok (withDisplayTime item shown), w').
Proof.
  unfold BatteryChart.labelInRange, tryCatch.
  destruct (newDate env (time item)) as [t |]; cbn.
  - eexists _, _. reflexivity.
  - eexists _, _. reflexivity.
Qed.

Lemma v2_labelPlain_spec env item w :
  exists shown w',
    BatteryChart.labelPlain env item w = (Ok (withDisplayTime item shown), w').
Proof.
  unfold BatteryChart.labelPlain, tryCatch.
  destruct (newDate env (time item)) as [t |]; cbn.
  - destruct (Js.includes "T" (time item)); eexists _, _; reflexivity.
  - eexists _, _. reflexivity.
Qed.

Lemma labelled_frame (item y : Item) :
  (exists shown, y = withDisplayTime item shown) -> sameButDisplayTime item y.
Proof. intros (shown & ->). apply withDisplayTime_frame. Qed.

Lemma labelledSubsequence_nil data : labelledSubsequence data [].
Proof. exists []. split; [apply sublist_nil_l | constructor]. Qed.

(* ===================================================================== *)
(** ** The pipelines as a whole *)
(* ===================================================================== *)

Lemma raw_filteredData_spec env data dateRange timeRange w :
  exists out w',
    RawBatteryChart.filteredData env data dateRange timeRange w = (Ok out, w')
    /\ labelledSubsequence data out.
Proof.
  unfold RawBatteryChart.filteredData. destruct (isEmpty data).
  - exists [], w. split; [reflexivity | apply labelledSubsequence_nil].
  - destruct (raw_rangeFilter_sublist env data dateRange timeRange w)
      as (kept & w1 & E1 & Hsub).
    destruct (mapE_Forall2 (RawBatteryChart.label env) sameButDisplayTime) with
      (array := kept) (w := w1) as (out & w2 & E2 & HF).
    { intros x w0. destruct (raw_label_spec env x w0) as (shown & w' & E).
      exists (withDisplayTime x shown), w'. split; [exact E | apply withDisplayTime_frame]. }
    exists out, w2. split.
    + rewrite (bind_Ok _ _ _ _ _ E1). exact E2.
    + exists kept. split; assumption.
Qed.

Lemma v2_labelPass_spec env processedData date w :
  exists out w',
    BatteryChart.labelPass env processedData date w = (Ok out, w')
    /\ Forall2 sameButDisplayTime processedData out.
Proof.
  unfold BatteryChart.labelPass. destruct (rangeFrom date) as [dfrom |].
  - apply mapE_Forall2. intros x w0.
    destruct (v2_labelInRange_spec env (BatteryChart.selectionSpan date dfrom) x w0)
      as (shown & w' & E).
    exists (withDisplayTime x shown), w'. split; [exact E | apply withDisplayTime_frame].
  - apply mapE_Forall2. intros x w0.
    destruct (v2_labelPlain_spec env x w0) as (shown & w' & E).
    exists (withDisplayTime x shown), w'. split; [exact E | apply withDisplayTime_frame].
Qed.

Lemma v2_filteredData_spec env data date w :
  exists out w',
    BatteryChart.filteredData env data date w = (Ok out, w')
    /\ labelledSubsequence data out.
Proof.
  unfold BatteryChart.filteredData. destruct (isEmpty data).
  - exists [], w. split; [reflexivity | apply labelledSubsequence_nil].
  - destruct (v2_dateFilter_sublist env data date w) as (kept & w1 & E1 & Hsub).
    destruct (v2_labelPass_spec env kept date w1) as (out & w2 & E2 & HF).
    exists out, w2. split.
    + rewrite (bind_Ok _ _ _ _ _ E1). exact E2.
    + exists kept. split; assumption.
Qed.

Lemma v1_filteredData_spec env data date w out w' :
  BatteryChartV1.filteredData env data date w = (Ok out, w') ->
  labelledSubsequence data out.
Proof.
  unfold BatteryChartV1.filteredData. destruct (isEmpty data).
  - intros H. injection H as <- _. apply labelledSubsequence_nil.
  - intros H.
    destruct (v1_dateFilter_sublist env data date w) as (kept & w1 & E1 & Hsub).
    rewrite (bind_Ok _ _ _ _ _ E1) in H.
    exists kept. split; [exact Hsub |].
    eapply mapE_Ok_Forall2; [| exact H].
    intros x w0 y w0' E. apply labelled_frame. eapply v1_label_spec, E.
Qed.

Lemma labelledSubsequence_elem data out o :
  labelledSubsequence data out -> o ∈ out ->
  exists i, i ∈ data /\ sameButDisplayTime i o.
Proof.
  intros (kept & Hsub & HF) Ho.
  apply list_elem_of_lookup in Ho as (n & Hn).
  destruct (Forall2_lookup_r _ _ _ _ _ HF Hn) as (i & Hi & HR).
  exists i. split; [| exact HR].
  eapply elem_of_sublist; [| exact Hsub].
  apply list_elem_of_lookup. now exists n.
Qed.

(** A filter whose callback is a test without effects is the plain filter
    by that test. *)
Lemma filterE_pure {A} (callback : A -> Eff bool) (test : A -> bool) :
  (forall x w, callback x w = (Ok (test x), w)) ->
  forall (array : list A) w,
    filterE callback array w = (Ok (List.filter test array), w).
Proof.
  intros Hc array w. induction array as [| x xs IH].
  - reflexivity.
  - cbn [filterE List.filter].
    rewrite (bind_Ok _ _ _ _ _ (Hc x w)), (bind_Ok _ _ _ _ _ IH). reflexivity.
Qed.

(** C9: for every input sequence and every filter setting, the filter
    stage of each chart returns, and what it returns is a subsequence of the
    input in the input's order: the date filter of both revisions of
    BatteryChart, and the date and time-of-day filters of RawBatteryChart
    in sequence.  No record is moved or repeated.  In both revisions of
    BatteryChart the result under a selection is exactly the records that
    pass the interval test, each once, in the input's order. *)
Theorem rangeFilter_keeps_order env data date timeRange w :
  (exists kept w', BatteryChartV1.dateFilter env data date w = (Ok kept, w')
                   /\ kept `sublist_of` data)
  /\ (exists kept w', BatteryChart.dateFilter env data date w = (Ok kept, w')
                      /\ kept `sublist_of` data)
  /\ (exists kept w', RawBatteryChart.rangeFilter env data date timeRange w = (Ok kept, w')
                      /\ kept `sublist_of` data)
  /\ (forall dfrom, rangeFrom date = Some dfrom ->
      let from := DateFns.startOfDay dfrom in
      let to := rangeEnd date dfrom in
      BatteryChartV1.dateFilter env data date w
      = (Ok (List.filter
               (fun item => DateFns.isWithinInterval (DateFns.parseISO env (time item)) from to)
               data), w)
      /\ BatteryChart.dateFilter env data date w
         = (Ok (List.filter
                  (fun item => DateFns.isValid (newDate env (time item))
                               && DateFns.isWithinInterval (newDate env (time item)) from to)
                  data), w)).
Proof.
  split; [| split; [| split]].
  - apply v1_dateFilter_sublist.
  - apply v2_dateFilter_sublist.
  - apply raw_rangeFilter_sublist.
  - intros dfrom Hfrom from to.
    unfold BatteryChartV1.dateFilter, BatteryChart.dateFilter. rewrite Hfrom.
    split; apply filterE_pure; intros x w0; reflexivity.
Qed.

Lemma rangeFilter_keeps_order_witness :
  BatteryChart.dateFilter sampleEnv
    [sampleItem "2024-01-01T08:00:00"; sampleItem "not-a-date";
     sampleItem "2024-01-05T08:00:00"; sampleItem "2024-01-03T23:59:59"]
    (Some (mkDateRange (Some jan1) (Some jan4))) freshWorld
  = (Ok [sampleItem "2024-01-01T08:00:00"; sampleItem "2024-01-03T23:59:59"], freshWorld).
Proof.
  destruct (rangeFilter_keeps_order sampleEnv
              [sampleItem "2024-01-01T08:00:00"; sampleItem "not-a-date";
               sampleItem "2024-01-05T08:00:00"; sampleItem "2024-01-03T23:59:59"]
              (Some (mkDateRange (Some jan1) (Some jan4)))
              RawBatteryChart.initialTimeRange freshWorld) as (_ & _ & _ & H).
  destruct (H jan1) as [_ H2].
  - reflexivity.
  - rewrite H2. reflexivity.
Defined.

(** C10: whatever one of the three filter-and-label pipelines returns, its
    records are, in order, those of a subsequence of the input, each with
    its [time] and every property other than [displayTime] unchanged; so
    every output record has an input record it differs from in
    [displayTime] only. *)
Theorem pipeline_touches_displayTime_only env data date timeRange w out w' :
  BatteryChartV1.filteredData env data date w = (Ok out, w')
  \/ BatteryChart.filteredData env data date w = (Ok out, w')
  \/ RawBatteryChart.filteredData env data date timeRange w = (Ok out, w') ->
  labelledSubsequence data out
  /\ forall o, o ∈ out -> exists i, i ∈ data /\ sameButDisplayTime i o.
Proof.
  intros H.
  assert (labelledSubsequence data out) as HL.
  { destruct H as [H | [H | H]].
    - eapply v1_filteredData_spec, H.
    - destruct (v2_filteredData_spec env data date w) as (out2 & w2 & E & HL).
      rewrite E in H. injection H as <- _. exact HL.
    - destruct (raw_filteredData_spec env data date timeRange w) as (out2 & w2 & E & HL).
      rewrite E in H. injection H as <- _. exact HL. }
  split; [exact HL |].
  intros o Ho. eapply labelledSubsequence_elem; eassumption.
Qed.

Lemma pipeline_touches_displayTime_only_witness :
  let item := sampleItem "Wed Jan 03 14:05:00 UTC 2024" in
  labelledSubsequence [item] [withDisplayTime item "14:05"]
  /\ forall o, o ∈ [withDisplayTime item "14:05"] ->
               exists i, i ∈ [item] /\ sameButDisplayTime i o.
Proof.
  apply (pipeline_touches_displayTime_only sampleEnv
           [sampleItem "Wed Jan 03 14:05:00 UTC 2024"] None
           RawBatteryChart.initialTimeRange freshWorld
           [withDisplayTime (sampleItem "Wed Jan 03 14:05:00 UTC 2024") "14:05"]
           freshWorld).
  right. right. vm_compute. reflexivity.
Defined.

(* ===================================================================== *)
(** ** The date filter: absent and single-day selections *)
(* ===================================================================== *)

(** C4: without a selection (no range, or a range with no start) the date
    filter of BatteryChart and of RawBatteryChart returns its input as it
    is; with a start date only, the interval runs from the start of that
    day to the end of the same day; and with 2024-01-01 selected alone,
    of a record at 2024-01-01T08:00 and one at 2024-01-02T08:00 exactly
    the first is kept, by the filter and by the pipeline around it. *)
Theorem dateFilter_absent_and_single_day env data w dto d f1 f2 :
  let r1 := mkItem "2024-01-01T08:00:00" f1 in
  let r2 := mkItem "2024-01-02T08:00:00" f2 in
  let q1 := mkItem "Mon Jan 01 08:00:00 UTC 2024" f1 in
  let q2 := mkItem "Tue Jan 02 08:00:00 UTC 2024" f2 in
  let single := Some (mkDateRange (Some jan1) None) in
  BatteryChartV1.dateFilter env data None w = (Ok data, w)
  /\ RawBatteryChart.dateFilter env data None w = (Ok data, w)
  /\ BatteryChartV1.dateFilter env data (Some (mkDateRange None dto)) w = (Ok data, w)
  /\ RawBatteryChart.dateFilter env data (Some (mkDateRange None dto)) w = (Ok data, w)
  /\ BatteryChartV1.dateFilter env data (Some (mkDateRange (Some d) None))
     = filterE (BatteryChartV1.inDateRange env (DateFns.startOfDay d) (DateFns.endOfDay d)) data
  /\ RawBatteryChart.dateFilter env data (Some (mkDateRange (Some d) None))
     = filterE (RawBatteryChart.inDateRange env (DateFns.startOfDay d) (DateFns.endOfDay d)) data
  /\ BatteryChartV1.dateFilter env [r1; r2] single w = (Ok [r1], w)
  /\ RawBatteryChart.dateFilter env [q1; q2] single w = (Ok [q1], w)
  /\ BatteryChartV1.filteredData env [r1; r2] single w
     = (Ok [withDisplayTime r1 "08:00"], w)
  /\ RawBatteryChart.filteredData env [q1; q2] single RawBatteryChart.initialTimeRange w
     = (Ok [withDisplayTime q1 "08:00"], w).
Proof.
  intros r1 r2 q1 q2 single.
  repeat split; try reflexivity.
Qed.

(* ===================================================================== *)
(** ** The scroll and zoom window *)
(* ===================================================================== *)

Lemma slice_suffix {A} (l : list A) (k n : nat) :
  length l = (k + n)%nat ->
  slice (Z.of_nat k) (Z.of_nat k + Z.of_nat n) l = drop k l.
Proof.
  intros Hlen. unfold slice. rewrite Hlen.
  destruct (Z.ltb_spec (Z.of_nat k) 0) as [Hk | _]; [lia |].
  destruct (Z.ltb_spec (Z.of_nat k + Z.of_nat n) 0) as [Hk | _]; [lia |].
  rewrite Z.min_l by lia. rewrite Z.min_l by lia.
  rewrite Nat2Z.id. apply take_ge. rewrite length_drop. lia.
Qed.

(** C5, counterexample: with 100 filtered records, a window of 30 and the
    offset -5, the clamped offset is -5 in both revisions: below 0. *)
Lemma negative_offset_passes_through :
  BatteryChartV1.clampedScrollIndex 100 30 (-5) = -5
  /\ ~ (0 <= BatteryChartV1.clampedScrollIndex 100 30 (-5)
        <= BatteryChartV1.maxScrollIndex 100 30)
  /\ ~ (0 <= BatteryChart.clampedScrollIndex
               (BatteryChart.syncWindow 100 (BatteryChart.mkWindow (-5) 0 0 30))).
Proof.
  split; [reflexivity | split].
  - intros [H _]. revert H. vm_compute. intros H. apply H. reflexivity.
  - vm_compute. intros H. apply H. reflexivity.
Qed.

(** C5, amended: for every filtered sequence, window size and offset,
    maxOffset = max(0, filteredLength - size) and
    clampedOffset = min(offset, maxOffset) in both revisions, so
    0 <= maxOffset and clampedOffset <= maxOffset; 0 <= clampedOffset holds
    when 0 <= offset, and a negative offset is returned as it is.  With 100
    filtered records, size 30 and offset 90: maxOffset = 70,
    clampedOffset = 70, and the visible slice is the records from index 70
    to the end, 30 of them. *)
Theorem window_clamp {A} (filtered : list A) (size offset m0 c0 : Z) :
  let len := Z.of_nat (length filtered) in
  let maxOffset := BatteryChartV1.maxScrollIndex len size in
  let clamped := BatteryChartV1.clampedScrollIndex len size offset in
  let synced := BatteryChart.syncWindow len (BatteryChart.mkWindow offset m0 c0 size) in
  maxOffset = Z.max 0 (len - size)
  /\ clamped = Z.min offset maxOffset
  /\ BatteryChart.maxScrollIndex synced = maxOffset
  /\ BatteryChart.clampedScrollIndex synced = clamped
  /\ 0 <= maxOffset
  /\ clamped <= maxOffset
  /\ (0 <= offset -> 0 <= clamped <= maxOffset)
  /\ (offset < 0 -> clamped = offset)
  /\ (len = 100 -> size = 30 -> offset = 90 ->
      maxOffset = 70 /\ clamped = 70
      /\ BatteryChartV1.visibleData filtered size offset = drop 70 filtered
      /\ BatteryChart.paginatedData filtered synced = drop 70 filtered
      /\ length (drop 70 filtered) = 30%nat).
Proof.
  intros len maxOffset clamped synced.
  unfold synced, clamped, maxOffset, BatteryChart.syncWindow,
    BatteryChartV1.clampedScrollIndex, BatteryChartV1.maxScrollIndex. cbn.
  repeat match goal with |- _ /\ _ => split end; try reflexivity; try lia.
  intros Hlen -> ->.
  assert (length filtered = (70 + 30)%nat) as Hl by (subst len; lia).
  unfold BatteryChartV1.visibleData, BatteryChart.paginatedData,
    BatteryChartV1.clampedScrollIndex, BatteryChartV1.maxScrollIndex. cbn.
  fold len. rewrite Hlen.
  change (Z.min 90 (Z.max 0 (100 - 30))) with (Z.of_nat 70).
  change (Z.of_nat 70 + 30) with (Z.of_nat 70 + Z.of_nat 30).
  rewrite (slice_suffix filtered 70 30 Hl).
  repeat split. rewrite length_drop. lia.
Qed.

Lemma window_clamp_witness :
  0 <= BatteryChartV1.clampedScrollIndex 100 30 90 <= BatteryChartV1.maxScrollIndex 100 30
  /\ BatteryChartV1.visibleData (seq 0 100) 30 90 = drop 70 (seq 0 100).
Proof.
  pose proof (window_clamp (seq 0 100) 30 90 0 0) as H. cbv zeta in H.
  destruct H as (_ & _ & _ & _ & _ & _ & Hpos & _ & Hscn).
  split.
  - apply Hpos. lia.
  - apply Hscn; reflexivity.
Defined.

(** C8, counterexample: with 100 records of which 20 pass the date filter,
    zooming out from 50 gives 60, above the filtered length; with 5
    records, zooming out gives 5, below the floor of 10; with no record,
    zooming out gives 0. *)
Lemma zoom_leaves_filtered_range :
  ~ sizeInRange 20 (BatteryChart.zoomOut 100 50)
  /\ ~ sizeInRange 5 (BatteryChart.zoomOut 5 50)
  /\ ~ sizeInRange 5 (BatteryChartV1.zoomOut 5 5)
  /\ BatteryChart.zoomOut 0 50 = 0
  /\ BatteryChartV1.zoomOut 0 0 = 0.
Proof.
  unfold sizeInRange, BatteryChart.zoomOut, BatteryChartV1.zoomOut.
  repeat split; try reflexivity; lia.
Qed.

(** C8, amended: in both revisions a zoom-in step leaves the size at 10 or
    more, and a zoom-out step leaves it at most [data.length], the length
    of the unfiltered input; when that length is at least 10 and the size
    was within [10, data.length], it is within [10, data.length] after
    either step, and so not 0. *)
Theorem zoom_bounds (dataLength prev : Z) :
  10 <= BatteryChartV1.zoomIn prev
  /\ 10 <= BatteryChart.zoomIn prev
  /\ BatteryChartV1.zoomOut dataLength prev <= dataLength
  /\ BatteryChart.zoomOut dataLength prev <= dataLength
  /\ (sizeInRange dataLength prev ->
      sizeInRange dataLength (BatteryChartV1.zoomIn prev)
      /\ sizeInRange dataLength (BatteryChartV1.zoomOut dataLength prev)
      /\ sizeInRange dataLength (BatteryChart.zoomIn prev)
      /\ sizeInRange dataLength (BatteryChart.zoomOut dataLength prev)
      /\ BatteryChart.zoomIn prev <> 0 /\ BatteryChart.zoomOut dataLength prev <> 0
      /\ BatteryChartV1.zoomIn prev <> 0 /\ BatteryChartV1.zoomOut dataLength prev <> 0).
Proof.
  unfold sizeInRange, BatteryChartV1.zoomIn, BatteryChartV1.zoomOut,
    BatteryChart.zoomIn, BatteryChart.zoomOut.
  repeat match goal with |- _ /\ _ => split end; lia.
Qed.

Lemma zoom_bounds_witness :
  sizeInRange 100 (BatteryChart.zoomIn 50)
  /\ sizeInRange 100 (BatteryChart.zoomOut 100 50).
Proof.
  destruct (zoom_bounds 100 50) as (_ & _ & _ & _ & H).
  destruct H as (_ & _ & Hin & Hout & _).
  - unfold sizeInRange. lia.
  - split; assumption.
Defined.

(* ===================================================================== *)
(** ** The label granularity of BatteryChart *)
(* ===================================================================== *)

(** What a filter returns satisfies whatever the callback's answer [true]
    implies. *)
Lemma filterE_Forall {A} (callback : A -> Eff bool) (P : A -> Prop) :
  (forall x w w', callback x w = (Ok true, w') -> P x) ->
  forall (array : list A) w kept w',
    filterE callback array w = (Ok kept, w') -> Forall P kept.
Proof.
  intros Hc array. induction array as [| x xs IH]; intros w kept w' H.
  - cbn in H. injection H as <- _. constructor.
  - cbn [filterE] in H.
    apply bind_Ok_inv in H as (keep & w1 & Ex & H).
    apply bind_Ok_inv in H as (rest & w2 & Er & H).
    injection H as <- _.
    specialize (IH _ _ _ Er).
    destruct keep; [constructor; [eapply Hc, Ex | exact IH] | exact IH].
Qed.

(** A map over records that satisfy [P]. *)
Lemma mapE_Ok_Forall {A B} (callback : A -> Eff B) (P : A -> Prop) (Q : B -> Prop) :
  (forall x w y w', P x -> callback x w = (Ok y, w') -> Q y) ->
  forall (array : list A) w out w',
    Forall P array -> mapE callback array w = (Ok out, w') -> Forall Q out.
Proof.
  intros Hc array. induction array as [| x xs IH]; intros w out w' HP H.
  - cbn in H. injection H as <- _. constructor.
  - cbn [mapE] in H.
    apply bind_Ok_inv in H as (y & w1 & Ex & H).
    apply bind_Ok_inv in H as (rest & w2 & Er & H).
    injection H as <- _.
    apply Forall_cons in HP as [Hx Hxs].
    constructor; [eapply Hc; eassumption | eapply IH; eassumption].
Qed.

Lemma patternFor_cases (span : Z) :
  (0 <= span <= 7 -> BatteryChart.patternFor (Some span) = DateFns.HH_mm)
  /\ (8 <= span <= 31 -> BatteryChart.patternFor (Some span) = DateFns.dd)
  /\ (31 < span -> BatteryChart.patternFor (Some span) = DateFns.MMM).
Proof.
  unfold BatteryChart.patternFor, BatteryChart.numEq, BatteryChart.numLe.
  repeat split; intros H.
  - destruct (Z.eqb_spec span 0); [reflexivity |].
    destruct (Z.leb_spec span 7); [reflexivity | lia].
  - destruct (Z.eqb_spec span 0); [lia |].
    destruct (Z.leb_spec span 7); [lia |].
    destruct (Z.leb_spec span 31); [reflexivity | lia].
  - destruct (Z.eqb_spec span 0); [lia |].
    destruct (Z.leb_spec span 7); [lia |].
    destruct (Z.leb_spec span 31); [lia | reflexivity].
Qed.

Lemma v2_inDateRange_true env from to item w w' :
  BatteryChart.inDateRange env from to item w = (Ok true, w') ->
  exists t, newDate env (time item) = ValidDate t.
Proof.
  unfold BatteryChart.inDateRange, tryCatch, ret.
  destruct (newDate env (time item)) as [t |]; cbn; intros H.
  - now exists t.
  - discriminate H.
Qed.

Lemma v2_labelInRange_valid env span item t w :
  newDate env (time item) = ValidDate t ->
  BatteryChart.labelInRange env span item w
  = (Ok (withDisplayTime item (DateFns.formatValid t (BatteryChart.patternFor span))), w).
Proof.
  intros Ht. unfold BatteryChart.labelInRange, tryCatch. rewrite Ht. reflexivity.
Qed.

Lemma displayTime_withDisplayTime item shown :
  displayTime (withDisplayTime item shown) = Some (Js.VString shown).
Proof. unfold displayTime, withDisplayTime. cbn. apply lookup_insert_eq. Qed.

(** C6: with a selection whose span, the number of whole days from the
    start of the first selected day to the end of the last, is [span],
    every record BatteryChart's pipeline returns has a valid date and is
    labelled from it: with hour:minute when the span is 0 to 7, with the
    two-digit day of the month when it is 8 to 31, with the abbreviated
    month name when it is more than 31. *)
Theorem label_granularity env data date dfrom span w out w' :
  rangeFrom date = Some dfrom ->
  BatteryChart.selectionSpan date dfrom = Some span ->
  BatteryChart.filteredData env data date w = (Ok out, w') ->
  Forall (labelledAtGranularity env span) out.
Proof.
  intros Hfrom Hspan H.
  unfold BatteryChart.filteredData in H. destruct (isEmpty data).
  { injection H as <- _. constructor. }
  apply bind_Ok_inv in H as (kept & w1 & Ef & Hl).
  unfold BatteryChart.dateFilter in Ef. unfold BatteryChart.labelPass in Hl.
  rewrite Hfrom in Ef, Hl. rewrite Hspan in Hl.
  assert (Forall (fun i => exists t, newDate env (time i) = ValidDate t) kept) as Hvalid.
  { eapply filterE_Forall; [| exact Ef].
    intros x w0 w0'. apply v2_inDateRange_true. }
  eapply mapE_Ok_Forall; [| exact Hvalid | exact Hl].
  intros x w0 y w0' (t & Ht) E. unfold labelledAtGranularity.
  rewrite (v2_labelInRange_valid env (Some span) x t w0 Ht) in E.
  injection E as <- _.
  exists t. split; [exact Ht |].
  rewrite displayTime_withDisplayTime.
  destruct (patternFor_cases span) as (H1 & H2 & H3).
  repeat split; intros Hs;
    [rewrite (H1 Hs) | rewrite (H2 Hs) | rewrite (H3 Hs)]; reflexivity.
Qed.

(** A selection of 2024-01-01 to 2024-01-04 spans 3 days, one of
    2024-01-01 to 2024-02-10 spans 40 days; the pipeline's output under
    each is labelled at the granularity of its span. *)
Lemma label_granularity_witness :
  Forall (labelledAtGranularity sampleEnv 3)
    [withDisplayTime (sampleItem "2024-01-02T09:30:00") "09:30"]
  /\ Forall (labelledAtGranularity sampleEnv 40)
       [withDisplayTime (sampleItem "2024-02-03T09:30:00") "Feb"].
Proof.
  split.
  - apply (label_granularity sampleEnv [sampleItem "2024-01-02T09:30:00"]
             (Some (mkDateRange (Some jan1) (Some jan4))) jan1 3 freshWorld
             [withDisplayTime (sampleItem "2024-01-02T09:30:00") "09:30"] freshWorld);
      reflexivity.
  - apply (label_granularity sampleEnv [sampleItem "2024-02-03T09:30:00"]
             (Some (mkDateRange (Some jan1) (Some feb10))) jan1 40 freshWorld
             [withDisplayTime (sampleItem "2024-02-03T09:30:00") "Feb"] freshWorld);
      reflexivity.
Defined.

(** The scenarios of the specification, on any engine: a 3-day selection
    labels with hour:minute, a 40-day selection with the month's
    abbreviation, a 10-day selection with the two-digit day. *)
Lemma label_granularity_scenarios env w f :
  BatteryChart.filteredData env [mkItem "2024-01-02T09:30:00" f]
    (Some (mkDateRange (Some jan1) (Some jan4))) w
  = (Ok [withDisplayTime (mkItem "2024-01-02T09:30:00" f) "09:30"], w)
  /\ BatteryChart.filteredData env [mkItem "2024-02-03T09:30:00" f]
       (Some (mkDateRange (Some jan1) (Some feb10))) w
     = (Ok [withDisplayTime (mkItem "2024-02-03T09:30:00" f) "Feb"], w)
  /\ BatteryChart.filteredData env [mkItem "2024-01-03T09:30:00" f]
       (Some (mkDateRange (Some jan1) (Some (ValidDate 1704931200000)))) w
     = (Ok [withDisplayTime (mkItem "2024-01-03T09:30:00" f) "03"], w).
Proof. repeat split. Qed.

(* ===================================================================== *)
(** ** parseCustomTimestamp *)
(* ===================================================================== *)

Lemma split_cons (sep c : ascii) (rest : string) :
  Js.split sep (String c rest)
  = if Ascii.eqb c sep then EmptyString :: Js.split sep rest
    else match Js.split sep rest with
         | tok :: toks => String c tok :: toks
         | [] => [String c EmptyString]
         end.
Proof. reflexivity. Qed.

Lemma split_token (a rest : string) :
  noSpace a -> Js.split " " (a +:+ " " +:+ rest) = a :: Js.split " " rest.
Proof.
  unfold noSpace. induction a as [| c a IH]; intros Ha.
  - reflexivity.
  - cbn [Js.includes] in Ha. apply orb_false_elim in Ha as [Hc Ha].
    change (String c a +:+ " " +:+ rest) with (String c (a +:+ " " +:+ rest)).
    rewrite split_cons, Hc, (IH Ha). reflexivity.
Qed.

Lemma split_last (a : string) : noSpace a -> Js.split " " a = [a].
Proof.
  unfold noSpace. induction a as [| c a IH]; intros Ha.
  - reflexivity.
  - cbn [Js.includes] in Ha. apply orb_false_elim in Ha as [Hc Ha].
    rewrite split_cons, Hc, (IH Ha). reflexivity.
Qed.

Lemma monthMap_table (m : Z) :
  1 <= m <= 12 ->
  RawBatteryChart.monthMap (Civil.monthAbbr m) = Some (Civil.twoDigits m).
Proof.
  intros Hm.
  assert (m = 1 \/ m = 2 \/ m = 3 \/ m = 4 \/ m = 5 \/ m = 6 \/ m = 7 \/ m = 8
          \/ m = 9 \/ m = 10 \/ m = 11 \/ m = 12) as Hcases by lia.
  repeat (destruct Hcases as [-> | Hcases]; [reflexivity |]).
  subst m. reflexivity.
Qed.

(** A timestamp that does not split into six tokens: the error is raised
    and caught inside, written to the console, and the clock is read. *)
Lemma parseCustomTimestamp_fallback env timestamp w :
  length (Js.split " " timestamp) <> 6%nat ->
  RawBatteryChart.parseCustomTimestamp env timestamp w
  = (Ok (ValidDate (clock env (reads w))),
     mkWorld (S (reads w))
       (console w ++ [mkLog "Error parsing timestamp:" timestamp
                        (Js.mkError "Error" "Invalid timestamp format")])).
Proof.
  intros Hlen.
  unfold RawBatteryChart.parseCustomTimestamp, RawBatteryChart.parseParts, tryCatch.
  destruct (Nat.eqb_spec (length (Js.split " " timestamp)) 6) as [E | _];
    [contradiction | reflexivity].
Qed.

(** C2, counterexample: "Wed Jan 03 14:05:00 2024" has five tokens;
    parsing it at 2026-11-02T10:04:05 returns that instant and writes the
    error to the console, while the ISO string denotes
    2024-01-03T14:05:00. *)
Lemma five_token_timestamp_falls_back :
  RawBatteryChart.parseCustomTimestamp sampleEnv "Wed Jan 03 14:05:00 2024" freshWorld
  = (Ok (ValidDate sampleNow),
     mkWorld 1 [mkLog "Error parsing timestamp:" "Wed Jan 03 14:05:00 2024"
                  (Js.mkError "Error" "Invalid timestamp format")])
  /\ newDate sampleEnv "2024-01-03T14:05:00" = ValidDate 1704290700000
  /\ fst (RawBatteryChart.parseCustomTimestamp sampleEnv "Wed Jan 03 14:05:00 2024" freshWorld)
     <> Ok (newDate sampleEnv "2024-01-03T14:05:00").
Proof.
  split; [reflexivity | split; [reflexivity |]].
  vm_compute. intros H. discriminate H.
Qed.

(** C2, amended: a timestamp of six space-separated tokens, weekday, month,
    day, time, a fifth token and the year, is rebuilt as
    year-month-dayTtime, the month through the table (which sends the
    twelve English abbreviations to 01..12) and the day padded to two
    digits, and parsed as that string; "Wed Jan 03 14:05:00 UTC 2024"
    therefore parses to the instant of "2024-01-03T14:05:00".
    "Wed Jan 03 14:05:00 2024" splits into five tokens and is not of this
    form. *)
Theorem six_token_timestamp_parses env w weekday mon day tm zone year m :
  (noSpace weekday -> noSpace mon -> noSpace day -> noSpace tm -> noSpace zone ->
   noSpace year ->
   RawBatteryChart.parseCustomTimestamp env
     (weekday +:+ " " +:+ mon +:+ " " +:+ day +:+ " " +:+ tm +:+ " " +:+ zone
      +:+ " " +:+ year) w
   = (Ok (newDate env (year +:+ "-" +:+ RawBatteryChart.interpolate (RawBatteryChart.monthMap mon)
                       +:+ "-" +:+ Js.padStart 2 "0" day +:+ "T" +:+ tm)), w))
  /\ (1 <= m <= 12 ->
      RawBatteryChart.monthMap (Civil.monthAbbr m) = Some (Civil.twoDigits m))
  /\ RawBatteryChart.parseCustomTimestamp env "Wed Jan 03 14:05:00 UTC 2024" w
     = (Ok (newDate env "2024-01-03T14:05:00"), w)
  /\ newDate env "2024-01-03T14:05:00" = ValidDate 1704290700000
  /\ length (Js.split " " "Wed Jan 03 14:05:00 2024") = 5%nat.
Proof.
  split; [| split; [apply monthMap_table | repeat split]].
  intros Hw Hm Hd Ht Hz Hy.
  unfold RawBatteryChart.parseCustomTimestamp, RawBatteryChart.parseParts, tryCatch.
  rewrite (split_token weekday _ Hw), (split_token mon _ Hm), (split_token day _ Hd),
    (split_token tm _ Ht), (split_token zone _ Hz), (split_last year Hy).
  reflexivity.
Qed.

Lemma six_token_timestamp_parses_witness :
  RawBatteryChart.parseCustomTimestamp sampleEnv "Sat Mar 7 06:30:15 GMT 2026" freshWorld
  = (Ok (ValidDate 1772865015000), freshWorld)
  /\ RawBatteryChart.monthMap "Mar" = Some "03".
Proof.
  destruct (six_token_timestamp_parses sampleEnv freshWorld
              "Sat" "Mar" "7" "06:30:15" "GMT" "2026" 3) as (H & Hm & _).
  split.
  - apply H; reflexivity.
  - apply Hm. lia.
Defined.

(** The labelling pass on such a record: the handler that would label it
    with its raw timestamp does not run. *)
Lemma raw_label_fallback env timestamp f w :
  length (Js.split " " timestamp) <> 6%nat ->
  RawBatteryChart.label env (mkItem timestamp f) w
  = (Ok (withDisplayTime (mkItem timestamp f)
           (DateFns.formatValid (clock env (reads w)) DateFns.HH_mm)),
     mkWorld (S (reads w))
       (console w ++ [mkLog "Error parsing timestamp:" timestamp
                        (Js.mkError "Error" "Invalid timestamp format")])).
Proof.
  intros Hlen. unfold RawBatteryChart.label, bind at 1, tryCatch, bind at 1. cbn [time].
  rewrite (parseCustomTimestamp_fallback env timestamp w Hlen). reflexivity.
Qed.

(** C3, counterexample: at 2026-11-02T10:04:05 the timestamp "not-a-date"
    does not fail to parse, it parses to that instant; its record stays in
    the unfiltered view and in the view filtered to that day, labelled
    "10:04" and not with its raw string. *)
Lemma unparseable_timestamp_is_dated_now :
  let item := sampleItem "not-a-date" in
  let today := sampleToday in
  fst (RawBatteryChart.parseCustomTimestamp sampleEnv "not-a-date" freshWorld)
  = Ok (ValidDate sampleNow)
  /\ fst (RawBatteryChart.filteredData sampleEnv [item] None
            RawBatteryChart.initialTimeRange freshWorld)
     = Ok [withDisplayTime item "10:04"]
  /\ fst (RawBatteryChart.filteredData sampleEnv [item] today
            RawBatteryChart.initialTimeRange freshWorld)
     = Ok [withDisplayTime item "10:04"]
  /\ displayTime (withDisplayTime item "10:04") <> Some (Js.VString (time item)).
Proof.
  intros item today.
  split; [reflexivity | split; [reflexivity | split; [reflexivity |]]].
  rewrite displayTime_withDisplayTime. intros H. discriminate H.
Qed.

(** C3, amended: for every string that does not split into six
    space-separated tokens, the body of parseCustomTimestamp throws
    Error("Invalid timestamp format"), and parseCustomTimestamp catches it
    itself: it returns a date, so no failure reaches the caller, and it has
    written one line with the timestamp and the error to the console; and
    the pipeline returns for every input, whatever its records'
    timestamps. *)
Theorem parse_failure_is_recovered env timestamp data dateRange timeRange w :
  length (Js.split " " timestamp) <> 6%nat ->
  let failure := Js.mkError "Error" "Invalid timestamp format" in
  RawBatteryChart.parseParts env timestamp w = (Throw failure, w)
  /\ (exists d w',
        RawBatteryChart.parseCustomTimestamp env timestamp w = (Ok d, w')
        /\ console w' = (console w ++ [mkLog "Error parsing timestamp:" timestamp failure])%list)
  /\ returns (RawBatteryChart.filteredData env data dateRange timeRange).
Proof.
  intros Hlen failure. split; [| split].
  - unfold RawBatteryChart.parseParts.
    destruct (Nat.eqb_spec (length (Js.split " " timestamp)) 6) as [E | _];
      [contradiction | reflexivity].
  - eexists _, _. split.
    + apply parseCustomTimestamp_fallback, Hlen.
    + reflexivity.
  - intros w0.
    destruct (raw_filteredData_spec env data dateRange timeRange w0) as (out & w1 & E & _).
    now exists out, w1.
Qed.

Lemma parse_failure_is_recovered_witness :
  RawBatteryChart.parseParts sampleEnv "not-a-date" freshWorld
  = (Throw (Js.mkError "Error" "Invalid timestamp format"), freshWorld)
  /\ returns (RawBatteryChart.filteredData sampleEnv
                [sampleItem "not-a-date"; sampleItem "Wed Jan 03 14:05:00 UTC 2024"]
                None RawBatteryChart.initialTimeRange).
Proof.
  destruct (parse_failure_is_recovered sampleEnv "not-a-date"
              [sampleItem "not-a-date"; sampleItem "Wed Jan 03 14:05:00 UTC 2024"]
              None RawBatteryChart.initialTimeRange freshWorld) as (Hp & _ & Hr).
  - vm_compute. intros H. discriminate H.
  - split; [exact Hp | exact Hr].
Defined.

(* ===================================================================== *)
(** ** The time-of-day filter of RawBatteryChart *)
(* ===================================================================== *)

Lemma hourOf_setMinutes (t m : Z) :
  0 <= m < 60 ->
  Civil.hourOf (t - Civil.minuteOf t * msPerMinute + m * msPerMinute) = Civil.hourOf t.
Proof.
  intros Hm. unfold Civil.hourOf, Civil.minuteOf, msPerDay, msPerHour, msPerMinute.
  Z.div_mod_to_equations. lia.
Qed.

(** For a record with a date, the filter compares the midnight of the
    record's day (its seconds kept) with the two bounds laid on the same
    day: the answer is the same for every hour and minute of the record. *)
Lemma inTimeRange_ignores_time env item t sh sm eh em w w' :
  RawBatteryChart.parseCustomTimestamp env (time item) w = (Ok (ValidDate t), w') ->
  0 <= sm < 60 -> 0 <= em < 60 ->
  let s := sh * msPerHour + sm * msPerMinute in
  let e := eh * msPerHour + em * msPerMinute in
  RawBatteryChart.inTimeRange env (Some sh) (Some sm) (Some eh) (Some em) item w
  = (Ok ((Z.min s e <=? 0) && (0 <=? Z.max s e)), w').
Proof.
  intros Hp Hsm Hem s e.
  unfold RawBatteryChart.inTimeRange, tryCatch.
  rewrite (bind_Ok _ _ _ _ _ Hp). unfold ret.
  unfold DateFns.setMinutes, DateFns.setHours, DateFns.isWithinInterval.
  rewrite (hourOf_setMinutes t sm Hsm), (hourOf_setMinutes t em Hem).
  assert (Civil.hourOf (t - Civil.minuteOf t * msPerMinute + 0 * msPerMinute)
          = Civil.hourOf t) as H0 by (apply hourOf_setMinutes; lia).
  rewrite H0.
  f_equal. f_equal. subst s e.
  set (base := t - Civil.minuteOf t * msPerMinute - Civil.hourOf t * msPerHour).
  f_equal.
  - destruct (Z.leb_spec (Z.min (sh * msPerHour + sm * msPerMinute)
                                (eh * msPerHour + em * msPerMinute)) 0);
      [apply Z.leb_le | apply Z.leb_gt]; subst base; lia.
  - destruct (Z.leb_spec 0 (Z.max (sh * msPerHour + sm * msPerMinute)
                                  (eh * msPerHour + em * msPerMinute)));
      [apply Z.leb_le | apply Z.leb_gt]; subst base; lia.
Qed.

(** C1, the code at the failing inputs: a record of 14:05 passes the
    bounds 00:00-01:00 and is dropped by the bounds 08:00-20:00, and a
    record whose timestamp does not parse passes the initial bounds
    00:00-23:59. *)
Lemma timeFilter_compares_midnight :
  let item := sampleItem "Wed Jan 03 14:05:00 UTC 2024" in
  let broken := sampleItem "not-a-date" in
  fst (RawBatteryChart.timeFilter sampleEnv [item] (mkTimeRange "00:00" "01:00") freshWorld)
  = Ok [item]
  /\ fst (RawBatteryChart.timeFilter sampleEnv [item] (mkTimeRange "08:00" "20:00") freshWorld)
     = Ok []
  /\ fst (RawBatteryChart.timeFilter sampleEnv [broken] RawBatteryChart.initialTimeRange
            freshWorld)
     = Ok [broken]
  /\ fst (RawBatteryChart.rangeFilter sampleEnv [broken]
            sampleToday RawBatteryChart.initialTimeRange freshWorld)
     = Ok [broken].
Proof.
  intros item broken. repeat split.
Qed.

(* ===================================================================== *)
(** ** Labels of records without a date *)
(* ===================================================================== *)

(** The first revision's labelling callback throws on a record whose
    timestamp [parseISO] rejects. *)
Lemma v1_label_throws env item w :
  DateFns.parseISO env (time item) = InvalidDate ->
  BatteryChartV1.label env item w
  = (Throw (Js.mkError "RangeError" "Invalid time value"), w).
Proof.
  intros H. unfold BatteryChartV1.label, bind. rewrite H. reflexivity.
Qed.


(** C7, the code at the failing input: for the record with the timestamp
    "not-a-date" and no selection, the first revision of BatteryChart
    throws a RangeError, RawBatteryChart labels the record "10:04" (the
    clock's reading) and keeps it in the view filtered to the current day;
    the second revision of BatteryChart labels it "not-a-date" and drops
    it from every filtered view. *)
Lemma unparseable_record_labels :
  let item := sampleItem "not-a-date" in
  let today := sampleToday in
  fst (BatteryChartV1.filteredData sampleEnv [item] None freshWorld)
  = Throw (Js.mkError "RangeError" "Invalid time value")
  /\ fst (RawBatteryChart.filteredData sampleEnv [item] None
            RawBatteryChart.initialTimeRange freshWorld)
     = Ok [withDisplayTime item "10:04"]
  /\ fst (RawBatteryChart.filteredData sampleEnv [item] today
            RawBatteryChart.initialTimeRange freshWorld)
     = Ok [withDisplayTime item "10:04"]
  /\ fst (BatteryChart.filteredData sampleEnv [item] None freshWorld)
     = Ok [withDisplayTime item "not-a-date"]
  /\ fst (BatteryChart.filteredData sampleEnv [item] today freshWorld) = Ok []
  /\ fst (BatteryChartV1.filteredData sampleEnv [item] today freshWorld) = Ok [].
Proof.
  intros item today. repeat split.
Qed.


(** No error of a record's timestamp ends the pass: the pipeline of the
    second revision of BatteryChart and that of RawBatteryChart return for
    every input and every selection. *)
Theorem pipelines_always_return env data date timeRange :
  returns (BatteryChart.filteredData env data date)
  /\ returns (RawBatteryChart.filteredData env data date timeRange).
Proof.
  split; intros w.
  - destruct (v2_filteredData_spec env data date w) as (out & w1 & E & _).
    now exists out, w1.
  - destruct (raw_filteredData_spec env data date timeRange w) as (out & w1 & E & _).
    now exists out, w1.
Qed.

(* ===================================================================== *)
(** ** The calendar: day numbers and civil dates *)
(* ===================================================================== *)

(** The year of the era of a day of the era, and the days it covers. *)
Lemma yoe_spec doe : 0 <= doe < 146097 ->
  let yoe := (doe - doe / 1460 + doe / 36524 - doe / 146096) / 365 in
  0 <= yoe <= 399
  /\ 365 * yoe + yoe / 4 - yoe / 100 <= doe
  /\ doe < 365 * (yoe + 1) + (yoe + 1) / 4 - (yoe + 1) / 100 + (yoe + 1) / 400.
Proof. intros H yoe. subst yoe. Z.div_mod_to_equations. lia. Qed.

(** The month (counted from March) and the day of a day of the year. *)
Lemma month_spec doy : 0 <= doy <= 365 ->
  let mp := (5 * doy + 2) / 153 in
  let d := doy - (153 * mp + 2) / 5 + 1 in
  0 <= mp <= 11 /\ 1 <= d
  /\ (doy <= 364 -> d <= (if mp =? 11 then 28 else if (mp =? 1) || (mp =? 3) || (mp =? 6) || (mp =? 8) then 30 else 31))
  /\ (doy = 365 -> mp = 11 /\ d = 29).
Proof.
  intros H mp d. subst mp d.
  repeat match goal with |- context [Z.eqb ?a ?b] => destruct (Z.eqb_spec a b) end; cbn [orb];
  Z.div_mod_to_equations; lia.
Qed.

(** The civil date of a day number is a date of the calendar, its day
    number is the one it came from, and the days of the years 1 to 9999
    have their year in that range. *)
Theorem civil_round_trip z :
  let '(y, m, d) := Civil.civilFromDays z in
  1 <= m <= 12 /\ 1 <= d <= Civil.daysInMonth y m /\ Civil.daysFromCivil y m d = z
  /\ (-719162 <= z <= 2932896 -> 1 <= y <= 9999).
Proof.
  unfold Civil.civilFromDays.
  set (zz := z + 719468).
  set (era := zz / 146097).
  set (doe := zz - era * 146097).
  assert (0 <= doe < 146097) as Hdoe by (subst doe era; Z.div_mod_to_equations; lia).
  pose proof (yoe_spec doe Hdoe) as Hy. cbv zeta in Hy.
  set (yoe := (doe - doe / 1460 + doe / 36524 - doe / 146096) / 365) in *.
  destruct Hy as (Hy1 & Hy2 & Hy3).
  set (doy := doe - (365 * yoe + yoe / 4 - yoe / 100)).
  assert (0 <= doy <= 365) as Hdoy by (subst doy; Z.div_mod_to_equations; lia).
  pose proof (month_spec doy Hdoy) as Hm. cbv zeta in Hm.
  set (mp := (5 * doy + 2) / 153) in *.
  set (d := doy - (153 * mp + 2) / 5 + 1) in *.
  destruct Hm as (Hm1 & Hd1 & Hd2 & Hd3).
  (* leap *)
  assert (doy = 365 -> Civil.isLeap (yoe + era * 400 + 1) = true) as Hleap.
  { intros E. unfold Civil.isLeap.
    repeat match goal with |- context [Z.eqb ?a ?b] => destruct (Z.eqb_spec a b) end; cbn; try reflexivity;
    exfalso; subst doy; Z.div_mod_to_equations; lia. }
  destruct (Z.ltb_spec mp 10) as [Hlt | Hge].
  - (* March..December *)
    destruct (Z.leb_spec (mp + 3) 2) as [? | _]; [lia |].
    split; [lia |]. split; [| split].
    + split; [lia |].
      assert (doy <= 364) as Hle by (destruct (Z.eq_dec doy 365) as [E|]; [destruct (Hd3 E); lia | lia]).
      specialize (Hd2 Hle). unfold Civil.daysInMonth.
      revert Hd2.
      repeat match goal with |- context [Z.eqb ?a ?b] => destruct (Z.eqb_spec a b) end; cbn [orb]; try lia.
    + unfold Civil.daysFromCivil.
      destruct (Z.leb_spec (mp + 3) 2) as [? | _]; [lia |].
      destruct (Z.ltb_spec 2 (mp + 3)) as [_ | ?]; [| lia].
      replace (mp + 3 - 3) with mp by lia.
      cbv zeta.
      assert ((yoe + era * 400) / 400 = era) as -> by (Z.div_mod_to_equations; lia).
      replace (yoe + era * 400 - era * 400) with yoe by lia.
      subst d doy doe zz. lia.
    + intros Hz. subst mp doy doe era zz. Z.div_mod_to_equations. lia.
  - (* January, February *)
    destruct (Z.leb_spec (mp - 9) 2) as [_ | ?]; [| lia].
    split; [lia |]. split; [| split].
    + split; [lia |].
      unfold Civil.daysInMonth.
      destruct (Z.eq_dec doy 365) as [E | NE].
      * destruct (Hd3 E) as [-> ->]. rewrite (Hleap E). reflexivity.
      * assert (doy <= 364) as Hle by lia. specialize (Hd2 Hle). revert Hd2.
        repeat match goal with |- context [Z.eqb ?a ?b] => destruct (Z.eqb_spec a b) end; cbn [orb]; try lia;
        destruct (Civil.isLeap _); lia.
    + unfold Civil.daysFromCivil.
      destruct (Z.leb_spec (mp - 9) 2) as [_ | ?]; [| lia].
      destruct (Z.ltb_spec 2 (mp - 9)) as [? | _]; [lia |].
      replace (yoe + era * 400 + 1 - 1) with (yoe + era * 400) by lia.
      replace (mp - 9 + 9) with mp by lia.
      cbv zeta.
      assert ((yoe + era * 400) / 400 = era) as -> by (Z.div_mod_to_equations; lia).
      replace (yoe + era * 400 - era * 400) with yoe by lia.
      subst d doy doe zz. lia.
    + intros Hz. subst mp doy doe era zz. Z.div_mod_to_equations. lia.
Qed.

(* ===================================================================== *)
(** ** Digits, and ISO timestamps read and written *)
(* ===================================================================== *)

Lemma digit_inv (c : ascii) (x : Z) :
  Js.digit c = Some x -> 0 <= x <= 9 /\ ascii_of_nat (Z.to_nat (48 + x)) = c.
Proof.
  unfold Js.digit. intros H.
  destruct (Z.leb_spec 48 (Z.of_nat (nat_of_ascii c))) as [H1 | ?]; [| discriminate H].
  destruct (Z.leb_spec (Z.of_nat (nat_of_ascii c)) 57) as [H2 | ?]; [| discriminate H].
  cbn in H. injection H as <-. split; [lia |].
  replace (48 + (Z.of_nat (nat_of_ascii c) - 48)) with (Z.of_nat (nat_of_ascii c)) by lia.
  rewrite Nat2Z.id. apply ascii_nat_embedding.
Qed.

Lemma digit_of_char (d : Z) :
  0 <= d <= 9 -> Js.digit (ascii_of_nat (Z.to_nat (48 + d))) = Some d.
Proof.
  intros H.
  assert (d = 0 \/ d = 1 \/ d = 2 \/ d = 3 \/ d = 4 \/ d = 5 \/ d = 6 \/ d = 7
          \/ d = 8 \/ d = 9) as Hc by lia.
  repeat (destruct Hc as [-> | Hc]; [reflexivity |]). subst d. reflexivity.
Qed.

Lemma num2_inv a b n :
  Civil.num2 a b = Some n -> 0 <= n <= 99 /\ Civil.twoDigits n = String a (String b EmptyString).
Proof.
  unfold Civil.num2. intros H.
  destruct (Js.digit a) as [x |] eqn:Ea; [| discriminate H].
  destruct (Js.digit b) as [y |] eqn:Eb; [| discriminate H].
  injection H as <-.
  apply digit_inv in Ea as [Hx Ha]. apply digit_inv in Eb as [Hy Hb].
  split; [lia |]. unfold Civil.twoDigits.
  replace ((10 * x + y) / 10) with x by (Z.div_mod_to_equations; lia).
  replace ((10 * x + y) mod 10) with y by (Z.div_mod_to_equations; lia).
  rewrite Ha, Hb. reflexivity.
Qed.

Lemma num2_twoDigits n :
  0 <= n <= 99 ->
  Civil.num2 (ascii_of_nat (Z.to_nat (48 + n / 10))) (ascii_of_nat (Z.to_nat (48 + n mod 10)))
  = Some n.
Proof.
  intros H. unfold Civil.num2.
  rewrite !digit_of_char by (Z.div_mod_to_equations; lia).
  f_equal. Z.div_mod_to_equations; lia.
Qed.

Lemma timeValue_fields y m d h mi s t :
  0 <= h -> 0 <= mi -> 0 <= s ->
  Civil.timeValue y m d h mi s = Some t ->
  Civil.hourOf t = h /\ Civil.minuteOf t = mi.
Proof.
  unfold Civil.timeValue. intros Hh Hmi Hs H.
  destruct (_ && _) eqn:E in H; [| discriminate H].
  injection H as <-.
  repeat (apply andb_true_iff in E as [E ?]).
  unfold Civil.hourOf, Civil.minuteOf, msPerDay, msPerHour, msPerMinute, msPerSecond.
  generalize (Civil.daysFromCivil y m d). intros days.
  split; Z.div_mod_to_equations; lia.
Qed.

(** The hour:minute label of an ISO timestamp is what the timestamp
    spells. *)
Lemma isoLocal_hourMinute (s : string) (t : Z) :
  Civil.isoLocal s = Some t ->
  DateFns.formatValid t DateFns.HH_mm = substring 11 5 s.
Proof.
  intros H. rewrite <- (string_of_list_ascii_of_string s).
  unfold Civil.isoLocal in H.
  destruct (list_ascii_of_string s) as [| y1 [| y2 [| y3 [| y4 [| c1 [| m1 [| m2 [| c2
    [| d1 [| d2 [| c3 [| h1 [| h2 [| c4 [| n1 [| n2 tl]]]]]]]]]]]]]]]];
    try discriminate H.
  destruct (Civil.isChar c1 "-" && Civil.isChar c2 "-" && Civil.isChar c3 "T"
            && Civil.isChar c4 ":") eqn:Ec; [| discriminate H].
  apply andb_true_iff in Ec as [_ Ec4]. apply Ascii.eqb_eq in Ec4. subst c4.
  destruct (Civil.num4 y1 y2 y3 y4) as [y |]; [| discriminate H].
  destruct (Civil.num2 m1 m2) as [m |]; [| discriminate H].
  destruct (Civil.num2 d1 d2) as [d |]; [| discriminate H].
  destruct (Civil.num2 h1 h2) as [h |] eqn:Eh; [| discriminate H].
  destruct (Civil.num2 n1 n2) as [mi |] eqn:Emi; [| discriminate H].
  apply num2_inv in Eh as [Hh Eh]. apply num2_inv in Emi as [Hmi Emi].
  assert (Civil.hourOf t = h /\ Civil.minuteOf t = mi) as [E1 E2].
  { destruct tl as [| c5 [| s1 [| s2 [| ? ?]]]]; try discriminate H.
    - eapply timeValue_fields; [| | | exact H]; lia.
    - destruct (Civil.isChar c5 ":"); [| discriminate H].
      destruct (Civil.num2 s1 s2) as [sec |] eqn:Es; [| discriminate H].
      apply num2_inv in Es as [Hs _].
      eapply timeValue_fields; [| | | exact H]; lia. }
  unfold DateFns.formatValid. rewrite E1, E2, Eh, Emi.
  cbn [string_of_list_ascii substring].
  destruct (string_of_list_ascii tl); reflexivity.
Qed.

Lemma isoLocal_includes_T s t : Civil.isoLocal s = Some t -> Js.includes "T" s = true.
Proof.
  intros H. rewrite <- (string_of_list_ascii_of_string s).
  unfold Civil.isoLocal in H.
  destruct (list_ascii_of_string s) as [| y1 [| y2 [| y3 [| y4 [| c1 [| m1 [| m2 [| c2
    [| d1 [| d2 [| c3 tl]]]]]]]]]]]; try discriminate H.
  destruct tl as [| h1 [| h2 [| c4 [| n1 [| n2 tl]]]]]; try discriminate H.
  destruct (Civil.isChar c1 "-" && Civil.isChar c2 "-" && Civil.isChar c3 "T"
            && Civil.isChar c4 ":") eqn:Ec; [| discriminate H].
  apply andb_true_iff in Ec as [Ec _]. apply andb_true_iff in Ec as [_ Ec3].
  unfold Civil.isChar in Ec3.
  cbn [string_of_list_ascii Js.includes]. rewrite Ec3.
  repeat rewrite orb_true_r. reflexivity.
Qed.

Lemma allFrom_spec fuel p : forall z0, allFrom fuel z0 p = true ->
  forall z, z0 <= z < z0 + Z.of_nat fuel -> p z = true.
Proof.
  induction fuel as [| k IH]; intros z0 H z Hz.
  - lia.
  - cbn [allFrom] in H. apply andb_true_iff in H as [Hk Hr].
    destruct (Z.eq_dec z z0) as [-> | Hne]; [exact Hk |].
    apply (IH (z0 + 1)); [exact Hr | lia].
Qed.

Lemma years_read_back : allFrom (Z.to_nat 9999) 1 yearReadsBack = true.
Proof. vm_compute. reflexivity. Qed.

Lemma yearText_digits y :
  1 <= y <= 9999 ->
  exists a b c e,
    DynamoDBService.yearText y = String a (String b (String c (String e EmptyString)))
    /\ Civil.num4 a b c e = Some y.
Proof.
  intros Hy.
  pose proof (allFrom_spec _ _ _ years_read_back y ltac:(lia)) as H.
  unfold yearReadsBack in H.
  destruct (DynamoDBService.yearText y) as [| a [| b [| c [| e [| ? ?]]]]]; try discriminate H.
  destruct (Civil.num4 a b c e) as [v |] eqn:E; [| discriminate H].
  apply Z.eqb_eq in H. subst v. now exists a, b, c, e.
Qed.

Lemma time_fields t :
  0 <= Civil.hourOf t <= 23 /\ 0 <= Civil.minuteOf t <= 59
  /\ 0 <= DynamoDBService.secondOf t <= 59
  /\ t / msPerDay * msPerDay + Civil.hourOf t * msPerHour
     + Civil.minuteOf t * msPerMinute + DynamoDBService.secondOf t * msPerSecond
     = DynamoDBService.toSecond t.
Proof.
  unfold Civil.hourOf, Civil.minuteOf, DynamoDBService.secondOf, DynamoDBService.toSecond,
    msPerDay, msPerHour, msPerMinute, msPerSecond.
  Z.div_mod_to_equations. lia.
Qed.

(** A time value of the years 1 to 9999, written under
    ["yyyy-MM-dd'T'HH:mm:ss"], reads back as the same instant to the
    second. *)
Lemma timestamp_round_trip t :
  DynamoDBService.fourDigitYear t ->
  Civil.isoLocal (DynamoDBService.timestampOf t) = Some (DynamoDBService.toSecond t).
Proof.
  intros Ht. unfold DynamoDBService.timestampOf.
  pose proof (civil_round_trip (t / msPerDay)) as Hc.
  destruct (Civil.civilFromDays (t / msPerDay)) as [[y m] d].
  destruct Hc as (Hm & Hd & Hdays & Hy).
  assert (1 <= y <= 9999) as Hy'.
  { apply Hy. unfold DynamoDBService.fourDigitYear, msPerDay in *.
    Z.div_mod_to_equations. lia. }
  destruct (yearText_digits y Hy') as (a & b & c & e & -> & Hnum).
  destruct (time_fields t) as (Hh & Hmi & Hs & Hsum).
  assert (d <= 31) as Hd31.
  { destruct Hd as [_ Hd]. unfold Civil.daysInMonth in Hd.
    repeat match type of Hd with context [if ?b then _ else _] => destruct b end; lia. }
  unfold Civil.twoDigits, Civil.isoLocal.
  cbv [String.append list_ascii_of_string].
  change (Civil.isChar "-" "-") with true. change (Civil.isChar "T" "T") with true.
  change (Civil.isChar ":" ":") with true. cbn [andb].
  rewrite Hnum, !num2_twoDigits by lia.
  unfold Civil.timeValue.
  repeat match goal with
         | |- context [Z.leb ?x ?y] =>
             destruct (Z.leb_spec x y); [| lia]
         end.
  cbn [andb]. rewrite Hdays. f_equal. exact Hsum.
Qed.

(* ===================================================================== *)
(** ** BatteryChart on ISO timestamps *)
(* ===================================================================== *)

(** A map whose callback has no effect on the records of the array is the
    plain map. *)
Lemma mapE_pure {A B} (callback : A -> Eff B) (f : A -> B) (array : list A) w :
  Forall (fun x => forall w0, callback x w0 = (Ok (f x), w0)) array ->
  mapE callback array w = (Ok (map f array), w).
Proof.
  induction array as [| x xs IH]; intros H.
  - reflexivity.
  - apply Forall_cons in H as [Hx Hxs]. cbn [mapE map].
    rewrite (bind_Ok _ _ _ _ _ (Hx w)), (bind_Ok _ _ _ _ _ (IH Hxs)). reflexivity.
Qed.

Lemma v1_label_iso env item t w :
  Civil.isoLocal (time item) = Some t ->
  BatteryChartV1.label env item w = (Ok (writtenTime item), w).
Proof.
  intros H. unfold BatteryChartV1.label, DateFns.parseISO, writtenTime. rewrite H.
  rewrite <- (isoLocal_hourMinute _ _ H). reflexivity.
Qed.

Lemma v2_labelPlain_iso env item t w :
  Civil.isoLocal (time item) = Some t ->
  BatteryChart.labelPlain env item w = (Ok (writtenTime item), w).
Proof.
  intros H. unfold BatteryChart.labelPlain, newDate, writtenTime, tryCatch. rewrite H.
  cbn [DateFns.isValid negb]. rewrite (isoLocal_includes_T _ _ H).
  rewrite <- (isoLocal_hourMinute _ _ H). reflexivity.
Qed.

Lemma iso_pipeline_run env data w :
  Forall isIsoLocal data ->
  BatteryChartV1.filteredData env data None w = (Ok (map writtenTime data), w)
  /\ BatteryChart.filteredData env data None w = (Ok (map writtenTime data), w).
Proof.
  intros H.
  unfold BatteryChartV1.filteredData, BatteryChart.filteredData.
  destruct data as [| x xs]; [split; reflexivity |].
  cbn [isEmpty]. unfold BatteryChartV1.dateFilter, BatteryChart.dateFilter,
    BatteryChart.labelPass. cbn [rangeFrom].
  split.
  - erewrite bind_Ok by reflexivity. apply mapE_pure.
    eapply Forall_impl; [exact H |]. intros item (t & Ht) w0.
    eapply v1_label_iso, Ht.
  - erewrite bind_Ok by reflexivity. apply mapE_pure.
    eapply Forall_impl; [exact H |]. intros item (t & Ht) w0.
    eapply v2_labelPlain_iso, Ht.
Qed.



(* ===================================================================== *)
(** ** generateFallbackData *)
(* ===================================================================== *)

Lemma map_as_fmap {A B} (f : A -> B) (l : list A) : map f l = f <$> l.
Proof. induction l as [| x xs IH]; [reflexivity | cbn; now rewrite IH]. Qed.

Lemma generateFallbackData_run env rnd points w :
  DynamoDBService.generateFallbackData env rnd points w
  = (Ok (fallbackRecords rnd (clock env (reads w)) points),
     mkWorld (S (reads w)) (console w)).
Proof.
  unfold DynamoDBService.generateFallbackData, fallbackRecords.
  erewrite bind_Ok by reflexivity.
  erewrite bind_Ok by (apply mapE_pure with (f := historicalRecord rnd (clock env (reads w)) points);
                       apply Forall_forall; intros i _ w0; reflexivity).
  erewrite bind_Ok by (apply mapE_pure with (f := futureRecord rnd (clock env (reads w)));
                       apply Forall_forall; intros i _ w0; reflexivity).
  reflexivity.
Qed.

Lemma fallbackRecords_lookup rnd now points i item :
  fallbackRecords rnd now points !! i = Some item ->
  (i < points + 12)%nat
  /\ time item = DynamoDBService.timestampOf (now + (Z.of_nat i + 1 - Z.of_nat points) * msPerHour)
  /\ (fields item !! "soc" = Some Js.VNull <-> (points <= i)%nat).
Proof.
  unfold fallbackRecords. rewrite !map_as_fmap. intros H.
  apply lookup_app_Some in H as [H | [Hlen H]].
  - apply list_lookup_fmap_Some in H as (k & -> & Hk).
    apply lookup_seq in Hk as [-> Hk]. cbn [Nat.add] in *.
    split; [lia | split].
    + unfold historicalRecord. cbn [time]. f_equal. unfold msPerHour. lia.
    + unfold historicalRecord. cbn [fields]. rewrite lookup_insert_eq.
      split; [intros E; discriminate E | lia].
  - rewrite length_fmap, length_seq in Hlen, H.
    apply list_lookup_fmap_Some in H as (k & -> & Hk).
    apply lookup_seq in Hk as [-> Hk]. cbn [Nat.add] in *.
    split; [lia | split].
    + unfold futureRecord. cbn [time]. f_equal. unfold msPerHour. lia.
    + unfold futureRecord. cbn [fields]. rewrite lookup_insert_eq.
      split; [lia | reflexivity].
Qed.

Lemma fallbackRecords_iso rnd now points :
  DynamoDBService.fourDigitYear (now - Z.of_nat points * msPerHour) ->
  DynamoDBService.fourDigitYear (now + 12 * msPerHour) ->
  Forall isIsoLocal (fallbackRecords rnd now points).
Proof.
  intros Hlo Hhi. apply Forall_lookup. intros i item H.
  apply fallbackRecords_lookup in H as (Hi & Ht & _).
  exists (fallbackInstant now points i). rewrite Ht. apply timestamp_round_trip.
  unfold DynamoDBService.fourDigitYear, msPerHour in *. lia.
Qed.

Lemma fallbackRecords_last rnd now points :
  last (fallbackRecords rnd now points) = Some (futureRecord rnd now 11).
Proof.
  unfold fallbackRecords.
  change (map (futureRecord rnd now) (seq 0 12))
    with (map (futureRecord rnd now) (seq 0 11) ++ [futureRecord rnd now 11])%list.
  rewrite app_assoc. apply last_snoc.
Qed.

Lemma fallbackRecords_first_actual rnd now points :
  BatteryMetricsCards.socText (fallbackRecords rnd now points)
  = match points with
    | O => Ok "N/A"
    | S _ => Ok (JsNumber.toFixed2 (DynamoDBService.socValue rnd 0))
    end.
Proof.
  destruct points as [| n]; reflexivity.
Qed.



(** X11: the fallback data through the dashboard: both revisions of
    BatteryChart, without a selection, return all of its records labelled
    with the hour:minute of their timestamps (the first revision does not
    throw); the prediction shown on the card is that of the last record,
    with two decimals; and the state of charge shown is that of the record
    of index 0, or N/A when [points] is 0. *)
Theorem fallback_data_through_the_dashboard env rnd points w :
  let now := clock env (reads w) in
  DynamoDBService.fourDigitYear (now - Z.of_nat points * msPerHour) ->
  DynamoDBService.fourDigitYear (now + 12 * msPerHour) ->
  exists data w1,
    DynamoDBService.generateFallbackData env rnd points w = (Ok data, w1)
    /\ BatteryChartV1.filteredData env data None w1 = (Ok (map writtenTime data), w1)
    /\ BatteryChart.filteredData env data None w1 = (Ok (map writtenTime data), w1)
    /\ BatteryMetricsCards.predictedText data
       = Ok (JsNumber.toFixed2 (DynamoDBService.futurePredicted rnd 11))
    /\ BatteryMetricsCards.socText data
       = match points with
         | O => Ok "N/A"
         | S _ => Ok (JsNumber.toFixed2 (DynamoDBService.socValue rnd 0))
         end.
Proof.
  intros now Hlo Hhi.
  exists (fallbackRecords rnd now points), (mkWorld (S (reads w)) (console w)).
  split; [apply generateFallbackData_run |].
  destruct (iso_pipeline_run env (fallbackRecords rnd now points)
              (mkWorld (S (reads w)) (console w))
              (fallbackRecords_iso rnd now points Hlo Hhi)) as [H1 H2].
  split; [exact H1 | split; [exact H2 | split]].
  - unfold BatteryMetricsCards.predictedText, BatteryMetricsCards.predictions.
    rewrite fallbackRecords_last. reflexivity.
  - apply fallbackRecords_first_actual.
Qed.

Lemma fallback_data_through_the_dashboard_witness :
  exists data w1,
    DynamoDBService.generateFallbackData sampleEnv DynamoDBService.sampleRandom 3 freshWorld
    = (Ok data, w1)
    /\ BatteryChartV1.filteredData sampleEnv data None w1 = (Ok (map writtenTime data), w1)
    /\ BatteryChart.filteredData sampleEnv data None w1 = (Ok (map writtenTime data), w1)
    /\ BatteryMetricsCards.predictedText data = Ok "61.00"
    /\ BatteryMetricsCards.socText data = Ok "60.00".
Proof.
  apply (fallback_data_through_the_dashboard sampleEnv DynamoDBService.sampleRandom 3
           freshWorld);
    vm_compute; (split; [intros H; discriminate H | reflexivity]).
Defined.

(* ===================================================================== *)
(** ** The metric checkboxes and the cards *)
(* ===================================================================== *)

(** X3: toggling a metric negates its flag and leaves every other flag as
    it is; toggles of different metrics commute; toggling a metric the
    state holds twice restores the state; and the lines the chart draws
    after a toggle are those drawn before, with the toggled metric's line
    added or removed. *)
Theorem toggleMetric_flips_one metric other (prev : gmap string bool) :
  Metrics.flag (Metrics.toggleMetric metric prev) metric = negb (Metrics.flag prev metric)
  /\ (other <> metric ->
      Metrics.toggleMetric metric prev !! other = prev !! other
      /\ Metrics.toggleMetric metric (Metrics.toggleMetric other prev)
         = Metrics.toggleMetric other (Metrics.toggleMetric metric prev))
  /\ (is_Some (prev !! metric) ->
      Metrics.toggleMetric metric (Metrics.toggleMetric metric prev) = prev)
  /\ (forall line, In line (Metrics.chartLines (Metrics.toggleMetric metric prev)) <->
        if String.eqb line metric
        then In line ["soc"; "soh"; "socPredicted"; "sohPredicted"]
             /\ Metrics.flag prev metric = false
        else In line (Metrics.chartLines prev)).
Proof.
  unfold Metrics.toggleMetric, Metrics.flag.
  split; [| split; [| split]].
  - rewrite lookup_insert_eq. reflexivity.
  - intros Hne. split.
    + apply lookup_insert_ne. congruence.
    + rewrite !lookup_insert_ne by congruence. apply insert_insert_ne. congruence.
  - intros [b Hb]. rewrite lookup_insert_eq, Hb. cbn.
    rewrite insert_insert_eq, negb_involutive. apply insert_id, Hb.
  - intros line. unfold Metrics.chartLines.
    destruct (String.eqb_spec line metric) as [-> | Hne];
      rewrite !filter_In; unfold Metrics.flag.
    + rewrite lookup_insert_eq. cbn. rewrite negb_true_iff. reflexivity.
    + rewrite lookup_insert_ne by congruence. reflexivity.
Qed.

Lemma toggleMetric_flips_one_witness :
  Metrics.toggleMetric "soh" (Metrics.toggleMetric "soh" Metrics.initialChart) = Metrics.initialChart
  /\ Metrics.toggleMetric "soh" (Metrics.toggleMetric "soc" Metrics.initialChart)
     = Metrics.toggleMetric "soc" (Metrics.toggleMetric "soh" Metrics.initialChart).
Proof.
  destruct (toggleMetric_flips_one "soh" "soc" Metrics.initialChart) as (_ & Hc & Hi & _).
  split.
  - apply Hi. vm_compute. eexists. reflexivity.
  - apply Hc. intros H. discriminate H.
Defined.

Lemma find_first {A} (p : A -> bool) (pre : list A) (x : A) (post : list A) :
  Forall (fun y => p y = false) pre -> p x = true ->
  List.find p (pre ++ x :: post) = Some x.
Proof.
  induction pre as [| y ys IH]; intros Hpre Hx.
  - cbn. now rewrite Hx.
  - apply Forall_cons in Hpre as [Hy Hys]. cbn. rewrite Hy. now apply IH.
Qed.

Lemma find_none {A} (p : A -> bool) (l : list A) :
  Forall (fun y => p y = false) l -> List.find p l = None.
Proof.
  induction l as [| y ys IH]; intros H; [reflexivity |].
  apply Forall_cons in H as [Hy Hys]. cbn. rewrite Hy. now apply IH.
Qed.

(** X4: the state of charge on the card is that of the first record, in
    the order of the array, whose soc is not null; when every record's soc
    is null, also when there is no record, the card shows N/A; the
    prediction is that of the last record, and N/A without records. *)
Theorem cards_show_first_actual_and_last_prediction (pre post : list Item) (item : Item) :
  (Forall (fun i => BatteryMetricsCards.socIsNotNull i = false) pre ->
   BatteryMetricsCards.socIsNotNull item = true ->
   BatteryMetricsCards.latestActualData (pre ++ item :: post) = item)
  /\ (Forall (fun i => BatteryMetricsCards.socIsNotNull i = false) pre ->
      BatteryMetricsCards.latestActualData pre = BatteryMetricsCards.noActualData
      /\ BatteryMetricsCards.socText pre = Ok "N/A")
  /\ BatteryMetricsCards.predictions (pre ++ [item]) = item
  /\ BatteryMetricsCards.predictedText [] = Ok "N/A"
  /\ BatteryMetricsCards.socText [] = Ok "N/A".
Proof.
  split; [| split; [| split; [| split]]].
  - intros Hpre Hitem. unfold BatteryMetricsCards.latestActualData.
    now rewrite (find_first _ pre item post Hpre Hitem).
  - intros Hpre. unfold BatteryMetricsCards.socText, BatteryMetricsCards.latestActualData.
    rewrite (find_none _ pre Hpre). split; reflexivity.
  - unfold BatteryMetricsCards.predictions. now rewrite last_snoc.
  - reflexivity.
  - reflexivity.
Qed.

Lemma cards_show_first_actual_and_last_prediction_witness :
  let empty := mkItem "2024-01-01T08:00:00" (<["soc" := Js.VNull]> ∅) in
  BatteryMetricsCards.latestActualData [empty; sampleItem "2024-01-01T09:00:00"]
  = sampleItem "2024-01-01T09:00:00"
  /\ BatteryMetricsCards.socText [empty] = Ok "N/A".
Proof.
  intros empty.
  destruct (cards_show_first_actual_and_last_prediction [empty] []
              (sampleItem "2024-01-01T09:00:00")) as (H1 & H2 & _).
  split.
  - apply H1; [repeat constructor | reflexivity].
  - apply H2. repeat constructor.
Defined.

(* ===================================================================== *)
(** ** The window and the zoom steps, further *)
(* ===================================================================== *)

(** X5: the second revision's slice, once its effect has run, is the first
    revision's; and for a scroll index and a zoom level that are not
    negative the visible records are the [zoomLevel] records from the
    clamped index on, min(zoomLevel, filteredLength) of them: the clamp
    keeps the window full at the end of the data. *)
Theorem visible_window_is_full {A} (filtered : list A) (zoomLevel scrollIndex m0 c0 : Z) :
  let len := Z.of_nat (length filtered) in
  let clamped := BatteryChartV1.clampedScrollIndex len zoomLevel scrollIndex in
  let synced := BatteryChart.syncWindow len (BatteryChart.mkWindow scrollIndex m0 c0 zoomLevel) in
  BatteryChart.paginatedData filtered synced
  = BatteryChartV1.visibleData filtered zoomLevel scrollIndex
  /\ (0 <= scrollIndex -> 0 <= zoomLevel ->
      BatteryChartV1.visibleData filtered zoomLevel scrollIndex
      = take (Z.to_nat zoomLevel) (drop (Z.to_nat clamped) filtered)
      /\ Z.of_nat (length (BatteryChartV1.visibleData filtered zoomLevel scrollIndex))
         = Z.min zoomLevel len).
Proof.
  intros len clamped synced. split; [reflexivity |].
  intros Hs Hz.
  unfold BatteryChartV1.visibleData. fold len. fold clamped.
  assert (0 <= clamped <= len /\ (zoomLevel <= len -> clamped + zoomLevel <= len)
          /\ (len < zoomLevel -> clamped = 0)) as (Hc & Hfit & Hbig).
  { subst clamped. unfold BatteryChartV1.clampedScrollIndex, BatteryChartV1.maxScrollIndex. lia. }
  unfold slice. fold len.
  destruct (Z.ltb_spec clamped 0) as [? | _]; [lia |].
  destruct (Z.ltb_spec (clamped + zoomLevel) 0) as [? | _]; [lia |].
  rewrite (Z.min_l clamped len) by lia.
  assert (take (Z.to_nat (Z.min (clamped + zoomLevel) len - clamped))
               (drop (Z.to_nat clamped) filtered)
          = take (Z.to_nat zoomLevel) (drop (Z.to_nat clamped) filtered)) as E.
  { destruct (Z.le_gt_cases (clamped + zoomLevel) len) as [Hle | Hgt].
    - rewrite Z.min_l by lia. f_equal. lia.
    - rewrite Z.min_r by lia. rewrite !take_ge; [reflexivity | |];
        rewrite length_drop; subst len; lia. }
  rewrite E. split; [reflexivity |].
  rewrite length_take, length_drop. subst len. lia.
Qed.

Lemma visible_window_is_full_witness :
  Z.of_nat (length (BatteryChartV1.visibleData (seq 0 100) 30 90)) = Z.min 30 100.
Proof.
  destruct (visible_window_is_full (seq 0 100) 30 90 0 0) as [_ H].
  destruct H as [_ H]; [lia | lia |]. exact H.
Defined.

(** X6: a zoom-in step does not enlarge a window of 10 or more, a zoom-out
    step does not shrink a window within the data; away from the bounds
    the two steps undo each other, in both revisions. *)
Theorem zoom_steps_invert (dataLength prev : Z) :
  (10 <= prev -> BatteryChart.zoomIn prev <= prev /\ BatteryChartV1.zoomIn prev <= prev)
  /\ (prev <= dataLength ->
      prev <= BatteryChart.zoomOut dataLength prev /\ prev <= BatteryChartV1.zoomOut dataLength prev)
  /\ (20 <= prev <= dataLength -> BatteryChart.zoomOut dataLength (BatteryChart.zoomIn prev) = prev)
  /\ (40 <= prev <= dataLength -> BatteryChartV1.zoomOut dataLength (BatteryChartV1.zoomIn prev) = prev)
  /\ (10 <= prev <= dataLength - 10 -> BatteryChart.zoomIn (BatteryChart.zoomOut dataLength prev) = prev)
  /\ (10 <= prev <= dataLength - 30 ->
      BatteryChartV1.zoomIn (BatteryChartV1.zoomOut dataLength prev) = prev).
Proof.
  unfold BatteryChart.zoomIn, BatteryChart.zoomOut, BatteryChartV1.zoomIn, BatteryChartV1.zoomOut.
  repeat split; lia.
Qed.

Lemma zoom_steps_invert_witness :
  BatteryChart.zoomOut 100 (BatteryChart.zoomIn 50) = 50
  /\ BatteryChartV1.zoomIn (BatteryChartV1.zoomOut 100 50) = 50.
Proof.
  destruct (zoom_steps_invert 100 50) as (_ & _ & H1 & _ & _ & H2).
  split; [apply H1 | apply H2]; lia.
Defined.

(* ===================================================================== *)
(** ** The filters, further *)
(* ===================================================================== *)

Lemma filter_idempotent {A} (p : A -> bool) (l : list A) :
  List.filter p (List.filter p l) = List.filter p l.
Proof.
  induction l as [| x xs IH]; [reflexivity |].
  cbn. destruct (p x) eqn:E; [cbn; rewrite E, IH; reflexivity | exact IH].
Qed.

(** X9: in both revisions of BatteryChart the date filter is idempotent:
    applied to its own result under the same selection it returns that
    result, and writes nothing to the console. *)
Theorem dateFilter_is_idempotent env data date w :
  exists kept1 kept2,
    BatteryChartV1.dateFilter env data date w = (Ok kept1, w)
    /\ BatteryChartV1.dateFilter env kept1 date w = (Ok kept1, w)
    /\ BatteryChart.dateFilter env data date w = (Ok kept2, w)
    /\ BatteryChart.dateFilter env kept2 date w = (Ok kept2, w).
Proof.
  unfold BatteryChartV1.dateFilter, BatteryChart.dateFilter.
  destruct (rangeFrom date) as [dfrom |].
  - eexists _, _. split; [| split; [| split]].
    + apply filterE_pure. intros x w0. reflexivity.
    + rewrite <- (filter_idempotent _ data) at 2. apply filterE_pure. intros x w0. reflexivity.
    + apply (filterE_pure _ (fun item => DateFns.isValid (newDate env (time item))
               && DateFns.isWithinInterval (newDate env (time item)) (DateFns.startOfDay dfrom) (rangeEnd date dfrom))).
      intros x w0. reflexivity.
    + rewrite <- (filter_idempotent _ data) at 2. apply filterE_pure. intros x w0. reflexivity.
  - exists data, data. repeat split.
Qed.

Lemma filterE_all {A} (callback : A -> Eff bool) (array : list A) :
  (forall x, x ∈ array -> forall w, exists w', callback x w = (Ok true, w')) ->
  forall w, exists w', filterE callback array w = (Ok array, w').
Proof.
  induction array as [| x xs IH]; intros H w.
  - exists w. reflexivity.
  - destruct (H x ltac:(left) w) as (w1 & E1).
    destruct (IH (fun y Hy => H y ltac:(right; exact Hy)) w1) as (w2 & E2).
    exists w2. cbn [filterE]. rewrite (bind_Ok _ _ _ _ _ E1), (bind_Ok _ _ _ _ _ E2).
    reflexivity.
Qed.

(** X7: with the initial time range 00:00-23:59 the time-of-day filter of
    RawBatteryChart returns all the records, when parseCustomTimestamp
    gives each of them a valid date. *)
Theorem initial_timeRange_keeps_dated_records env data w :
  Forall (hasDate env) data ->
  exists w', RawBatteryChart.timeFilter env data RawBatteryChart.initialTimeRange w = (Ok data, w').
Proof.
  intros H.
  change (RawBatteryChart.timeFilter env data RawBatteryChart.initialTimeRange)
    with (filterE (RawBatteryChart.inTimeRange env (Some 0) (Some 0) (Some 23) (Some 59)) data).
  apply filterE_all. intros item Hin w0.
  rewrite Forall_forall in H. destruct (H item Hin w0) as (t & w1 & E).
  exists w1.
  rewrite (inTimeRange_ignores_time env item t 0 0 23 59 w0 w1 E) by lia.
  reflexivity.
Qed.

Lemma initial_timeRange_keeps_dated_records_witness :
  exists w', RawBatteryChart.timeFilter sampleEnv
               [sampleItem "Wed Jan 03 14:05:00 UTC 2024"; sampleItem "not-a-date"]
               RawBatteryChart.initialTimeRange freshWorld
             = (Ok [sampleItem "Wed Jan 03 14:05:00 UTC 2024"; sampleItem "not-a-date"], w').
Proof.
  apply initial_timeRange_keeps_dated_records.
  repeat constructor; intros w; eexists _, _; reflexivity.
Defined.

(* ===================================================================== *)
(** ** RawBatteryChart on well-formed timestamps *)
(* ===================================================================== *)









